(** * Manufacturing sensor data generator: a shallow embedding

    This development models [08-sample-data/data_generator.py], the class
    [ManufacturingDataGenerator], and proves properties of its generators.

    Conventions of the embedding.
    - Python [int] is [Z]; Python [float] is idealised as an exact rational
      [Q] (no rounding error, no NaN, no infinities).
    - A pandas [Timestamp] is the number of seconds since 1970-01-01 00:00:00
      (pandas stores nanoseconds since that epoch; nothing here is finer than
      a second).
    - The two process-wide pseudorandom generators (Python's [random] module
      and NumPy's [np.random]) are tapes of draws inside an explicit [World]
      that every generator function threads through.
    - Exceptions are an explicit outcome; the world reached when an exception
      is raised is kept, as side effects already performed are in Python.
    - [np.sin], [np.pi] and [pd.to_datetime] belong to NumPy and pandas, not
      to this repository: they are parameters of the embedding. *)

From Stdlib Require Import ZArith QArith Qround List String Ascii Bool Lia Lqa.

From Stdlib Require Import Permutation.

Import ListNotations.

Local Open Scope Z_scope.

(* ------------------------------------------------------------------ *)
(** ** Outcomes and worlds *)

Inductive Exception : Type :=
| ValueError (msg : string)
| ZeroDivisionError
| IndexError
| KeyError (key : string)
| AttributeError (msg : string).

Inductive Outcome (A : Type) : Type :=
| Ok (a : A)
| Raise (e : Exception).

Arguments Ok {A} a.

Arguments Raise {A} e.

(** A tape is an infinite sequence of draws and a cursor. *)
Record Tape : Type := mkTape { draws : nat -> Q; pos : nat }.

Definition peek (t : Tape) : Q := draws t (pos t).

Definition advance (t : Tape) : Tape := mkTape (draws t) (S (pos t)).

(** Every draw of a uniform tape lies in [[0, 1)], as [random.random()]
    promises. *)
Definition uniform_tape (t : Tape) : Prop :=
  forall n, (0 <= draws t n /\ draws t n < 1)%Q.

(* ------------------------------------------------------------------ *)
(** ** Data model

    The dictionaries of the source become records; keys that are only
    present in some dictionaries are options or an ordered list of extra
    items. *)

(** An element of [_create_sensor_config]. *)
Record SensorConfig : Type := mkSensor {
  sensor_id : string;
  s_equipment_id : string;
  s_type : string;
  s_location : string;
  normal_range : Q * Q;
  alert_threshold : Q * Q;
  error_rate : Q
}.

(** An element of [_create_equipment_config]. *)
Record EquipmentConfig : Type := mkEquipment {
  equipment_id : string;
  e_name : string;
  e_type : string;
  e_location : string;
  e_status : string
}.

Inductive Field : Type :=
| FNum (x : Q)
| FStr (s : string).

(** The [record] dictionary of [generate_sensor_data]; [r_extra] holds the
    sensor-specific items in insertion order. *)
Record SensorReading : Type := mkReading {
  r_sensor_id : string;
  r_equipment_id : string;
  r_timestamp : string;
  r_value : Q;
  r_sensor_type : string;
  r_location : string;
  r_status : string;
  r_quality_score : Q;
  r_is_anomaly : bool;
  r_extra : list (string * Field)
}.

Record LogParameters : Type := mkParams {
  cpu_usage : Q;
  memory_usage : Q;
  network_latency : Q
}.

(** The [log_entry] dictionary of [_generate_log_entry]. *)
Record LogEntry : Type := mkLog {
  l_equipment_id : string;
  l_equipment_name : string;
  l_timestamp : string;
  l_log_level : string;
  l_message : string;
  l_location : string;
  l_equipment_type : string;
  l_status : string;
  l_error_code : option string;
  l_severity : option string;
  l_warning_code : option string;
  l_parameters : LogParameters
}.

(** The [metric] dictionary of [generate_quality_metrics]. *)
Record QualityMetric : Type := mkMetric {
  m_equipment_id : string;
  m_date : string;
  m_location : string;
  uptime_hours : Q;
  downtime_hours : Q;
  efficiency_percentage : Q;
  error_count : Z;
  warning_count : Z;
  maintenance_required : bool;
  last_maintenance_date : string;
  next_maintenance_date : string;
  production_units : Z;
  m_quality_score : Q
}.

(** The [summary] dictionary of [save_data]. *)
Record Summary : Type := mkSummary {
  generation_date : string;
  period_start_date : string;
  period_end_date : string;
  period_num_days : Z;
  count_sensor_readings : Z;
  count_equipment_logs : Z;
  count_quality_metrics : Z;
  summary_sensors : Z;
  summary_equipment : Z
}.

(** What a written file holds.  The text rendering ([to_csv], [json.dump])
    is not modelled: a file is identified with the rows it was given. *)
Inductive FileContent : Type :=
| SensorCsv (rows : list SensorReading)
| LogsJson (entries : list LogEntry)
| MetricsCsv (rows : list QualityMetric)
| SummaryJson (s : Summary).

Record World : Type := mkWorld {
  py_random : Tape;      (* draws of Python's [random] module, each in [0,1) *)
  np_normal : Tape;      (* standard normal deviates of [np.random] *)
  np_uniform : Tape;     (* uniform draws of [np.random], each in [0,1) *)
  clock : Z;             (* [datetime.now()], seconds since the epoch *)
  files : list (string * FileContent)   (* files written so far, in order *)
}.

Definition set_py (w : World) (t : Tape) : World :=
  mkWorld t (np_normal w) (np_uniform w) (clock w) (files w).

Definition set_np_normal (w : World) (t : Tape) : World :=
  mkWorld (py_random w) t (np_uniform w) (clock w) (files w).

Definition set_np_uniform (w : World) (t : Tape) : World :=
  mkWorld (py_random w) (np_normal w) t (clock w) (files w).

Definition add_file (w : World) (path : string) (c : FileContent) : World :=
  mkWorld (py_random w) (np_normal w) (np_uniform w) (clock w)
          (files w ++ [(path, c)]).

(** The tapes of a well-formed world deliver what the libraries promise. *)
Definition world_ok (w : World) : Prop :=
  uniform_tape (py_random w) /\ uniform_tape (np_uniform w).

(* ------------------------------------------------------------------ *)
(** ** The generator monad: state and exceptions *)

Definition M (A : Type) : Type := World -> Outcome A * World.

Definition ret {A} (a : A) : M A := fun w => (Ok a, w).

Definition raise {A} (e : Exception) : M A := fun w => (Raise e, w).

Definition bind {A B} (c : M A) (k : A -> M B) : M B :=
  fun w => match c w with
           | (Ok a, w') => k a w'
           | (Raise e, w') => (Raise e, w')
           end.

Declare Scope gen_scope.

Delimit Scope gen_scope with gen.

Notation "x <- c ;; k" := (bind c (fun x => k))
  (at level 61, c at next level, right associativity) : gen_scope.

Notation "c ;;; k" := (bind c (fun _ => k))
  (at level 61, right associativity) : gen_scope.

Local Open Scope gen_scope.

(** [for x in xs: data.extend(body x)]: runs [body] on each element in
    order and appends what it produced; an exception stops the loop. *)
Fixpoint for_each {A B} (xs : list A) (body : A -> M (list B)) : M (list B) :=
  match xs with
  | [] => ret []
  | x :: xs' =>
      out <- body x ;;
      rest <- for_each xs' body ;;
      ret (out ++ rest)
  end.

(* ------------------------------------------------------------------ *)
(** ** Python and NumPy primitives *)

Definition Qlt_bool (x y : Q) : bool := negb (Qle_bool y x).

(** [range(start, stop, step)] *)
Definition py_range3 (start stop step : Z) : Outcome (list Z) :=
  if step =? 0 then Raise (ValueError "range() arg 3 must not be zero")
  else
    let n := if 0 <? step
             then (stop - start + step - 1) / step
             else (start - stop - step - 1) / (- step) in
    Ok (map (fun i => start + Z.of_nat i * step) (seq 0 (Z.to_nat n))).

(** [range(n)] *)
Definition py_range (n : Z) : list Z :=
  map Z.of_nat (seq 0 (Z.to_nat n)).

(** [a // b] *)
Definition floordiv (a b : Z) : Outcome Z :=
  if b =? 0 then Raise ZeroDivisionError else Ok (a / b).

Definition lift {A} (o : Outcome A) : M A := fun w => (o, w).

(** [random.random()] *)
Definition random_random : M Q :=
  fun w => (Ok (peek (py_random w)), set_py w (advance (py_random w))).

(** [random.uniform(a, b)], which is [a + (b - a) * random()] *)
Definition random_uniform (a b : Q) : M Q :=
  u <- random_random ;; ret (a + (b - a) * u)%Q.

(** The index drawn by [random.choice] and [random.randint]: a uniform
    integer below [n], obtained from one draw of the tape. *)
Definition randbelow (n : Z) : M Z :=
  u <- random_random ;; ret (Qfloor (u * inject_Z n)).

(** [random.choice(seq)] *)
Definition random_choice {A} (l : list A) : M A :=
  match l with
  | [] => raise IndexError
  | _ =>
      i <- randbelow (Z.of_nat (List.length l)) ;;
      match nth_error l (Z.to_nat i) with
      | Some x => ret x
      | None => raise IndexError
      end
  end.

(** [random.randint(a, b)] *)
Definition random_randint (a b : Z) : M Z :=
  if b <? a then raise (ValueError "empty range for randrange()")
  else i <- randbelow (b - a + 1) ;; ret (a + i).

(** [np.random.normal(loc, scale)] *)
Definition np_random_normal (loc scale : Q) : M Q :=
  fun w => (Ok (loc + scale * peek (np_normal w))%Q,
            set_np_normal w (advance (np_normal w))).

(** The index of [np.random.choice(keys, p=weights)]: the number of
    cumulative weights that are at most the uniform draw. *)
Fixpoint searchsorted_right (acc : Q) (p : list Q) (u : Q) : nat :=
  match p with
  | [] => O
  | x :: p' =>
      let c := (acc + x)%Q in
      if Qle_bool c u then S (searchsorted_right c p' u) else O
  end.

(** [np.random.choice(keys, p=weights)] *)
Definition np_random_choice {A} (keys : list A) (p : list Q) : M A :=
  fun w =>
    let u := peek (np_uniform w) in
    let w' := set_np_uniform w (advance (np_uniform w)) in
    match nth_error keys (searchsorted_right 0 p u) with
    | Some k => (Ok k, w')
    | None => (Raise IndexError, w')
    end.

(** Rounding to the nearest integer, ties to even. *)
Definition round_half_even (x : Q) : Z :=
  let f := Qfloor x in
  let r := (x - inject_Z f)%Q in
  if Qlt_bool r (1 # 2) then f
  else if Qlt_bool (1 # 2) r then f + 1
  else if Z.even f then f else f + 1.

(** [round(x, ndigits)] *)
Definition py_round (x : Q) (ndigits : Z) : Q :=
  let s := inject_Z (10 ^ ndigits) in
  (inject_Z (round_half_even (x * s)) / s)%Q.

(* ------------------------------------------------------------------ *)
(** ** Timestamps and their rendering

    A timestamp is a number of seconds since 1970-01-01 00:00:00.  The
    proleptic Gregorian calendar is computed from the day number. *)

Definition timedelta_days (d : Z) : Z := 86400 * d.

Definition timedelta_minutes (m : Z) : Z := 60 * m.

Definition timedelta_seconds (s : Z) : Z := s.

Definition day_number (ts : Z) : Z := ts / 86400.

Definition second_of_day (ts : Z) : Z := ts mod 86400.

(** [timestamp.hour] *)
Definition hour (ts : Z) : Z := second_of_day ts / 3600.

Definition minute (ts : Z) : Z := (second_of_day ts / 60) mod 60.

Definition second (ts : Z) : Z := second_of_day ts mod 60.

(** [timestamp.weekday()]: Monday is 0; 1970-01-01 was a Thursday. *)
Definition weekday (ts : Z) : Z := (day_number ts + 3) mod 7.

(** Year, month and day of a day number. *)
Definition civil_from_days (days : Z) : Z * Z * Z :=
  let z := days + 719468 in
  let era := z / 146097 in
  let doe := z - era * 146097 in
  let yoe := (doe - doe / 1460 + doe / 36524 - doe / 146096) / 365 in
  let doy := doe - (365 * yoe + yoe / 4 - yoe / 100) in
  let mp := (5 * doy + 2) / 153 in
  let d := doy - (153 * mp + 2) / 5 + 1 in
  let m := if mp <? 10 then mp + 3 else mp - 9 in
  let y := yoe + era * 400 + (if m <=? 2 then 1 else 0) in
  (y, m, d).

(** The day number of a year, month and day. *)
Definition days_from_civil (y m d : Z) : Z :=
  let y' := if m <=? 2 then y - 1 else y in
  let era := y' / 400 in
  let yoe := y' - era * 400 in
  let doy := (153 * (if 2 <? m then m - 3 else m + 9) + 2) / 5 + d - 1 in
  let doe := yoe * 365 + yoe / 4 - yoe / 100 + doy in
  era * 146097 + doe - 719468.

Definition year (ts : Z) : Z := fst (fst (civil_from_days (day_number ts))).

Definition month (ts : Z) : Z := snd (fst (civil_from_days (day_number ts))).

Definition day (ts : Z) : Z := snd (civil_from_days (day_number ts)).

(** [timestamp.timetuple().tm_yday]: 1 on the first of January. *)
Definition tm_yday (ts : Z) : Z :=
  day_number ts - days_from_civil (year ts) 1 1 + 1.

Definition digit (n : Z) : ascii := ascii_of_nat (48 + Z.to_nat (n mod 10)).

Definition zpad2 (n : Z) : string :=
  String (digit (n / 10)) (String (digit n) EmptyString).

Definition zpad4 (n : Z) : string :=
  String (digit (n / 1000)) (String (digit (n / 100)) (zpad2 n)).

(** [strftime("%Y-%m-%d")] *)
Definition strftime_date (ts : Z) : string :=
  (zpad4 (year ts) ++ "-" ++ zpad2 (month ts) ++ "-" ++ zpad2 (day ts))%string.

(** [strftime("%Y-%m-%d %H:%M:%S")] *)
Definition strftime_datetime (ts : Z) : string :=
  (strftime_date ts ++ " " ++
   zpad2 (hour ts) ++ ":" ++ zpad2 (minute ts) ++ ":" ++ zpad2 (second ts))%string.

(** [str(n)] for a non-negative integer of at most [fuel] digits. *)
Fixpoint str_nat (fuel : nat) (n : Z) (acc : string) : string :=
  match fuel with
  | O => acc
  | S fuel' =>
      let acc' := String (digit n) acc in
      if n / 10 =? 0 then acc' else str_nat fuel' (n / 10) acc'
  end.

Definition str_int (n : Z) : string := str_nat 20 n EmptyString.

(** [s[:n]] *)
Fixpoint prefix (n : nat) (s : string) : string :=
  match n, s with
  | S n', String c s' => String c (prefix n' s')
  | _, _ => EmptyString
  end.

(* ------------------------------------------------------------------ *)
(** ** The generator class *)

(** The instance attributes of [ManufacturingDataGenerator]. *)
Record Generator : Type := mkGen {
  start_date : Z;
  num_days : Z;
  sensors : list SensorConfig;
  equipment : list EquipmentConfig
}.

Definition _create_sensor_config : list SensorConfig :=
  [ mkSensor "TEMP_001" "EQ_FURNACE_01" "temperature" "Production Line A"
             (20, 25)%Q (15, 35)%Q 0.02%Q;
    mkSensor "TEMP_002" "EQ_FURNACE_02" "temperature" "Production Line B"
             (22, 28)%Q (18, 40)%Q 0.015%Q;
    mkSensor "HUM_001" "EQ_CHAMBER_01" "humidity" "Quality Control"
             (45, 55)%Q (30, 70)%Q 0.01%Q;
    mkSensor "PRESS_001" "EQ_COMPRESSOR_01" "pressure" "Pneumatic System"
             (100, 120)%Q (80, 150)%Q 0.025%Q;
    mkSensor "VIB_001" "EQ_MOTOR_01" "vibration" "Motor Assembly"
             (0.1, 0.3)%Q (0.05, 0.8)%Q 0.03%Q ].

Definition _create_equipment_config : list EquipmentConfig :=
  [ mkEquipment "EQ_FURNACE_01" "Industrial Furnace Unit 1"
                "Heating Equipment" "Production Line A" "operational";
    mkEquipment "EQ_FURNACE_02" "Industrial Furnace Unit 2"
                "Heating Equipment" "Production Line B" "operational";
    mkEquipment "EQ_CHAMBER_01" "Environmental Chamber"
                "Climate Control" "Quality Control" "operational";
    mkEquipment "EQ_COMPRESSOR_01" "Air Compressor System"
                "Pneumatic Equipment" "Pneumatic System" "operational";
    mkEquipment "EQ_MOTOR_01" "Primary Drive Motor"
                "Motor Assembly" "Motor Assembly" "operational" ].

(** [random.choice([-2, -1.5, 1.5, 2])] draws from this list. *)
Definition anomaly_factors : list Q := [-2; -1.5; 1.5; 2]%Q.

Definition log_levels : list string := ["INFO"; "WARNING"; "ERROR"; "DEBUG"]%string.

Definition log_templates : list (string * list string) :=
  [ ("INFO", [ "Equipment startup completed successfully";
               "Maintenance cycle completed";
               "Performance metrics within normal range";
               "System health check passed";
               "Configuration updated successfully" ]);
    ("WARNING", [ "Temperature approaching upper threshold";
                  "Vibration levels elevated but within limits";
                  "Maintenance due within 24 hours";
                  "Performance efficiency below optimal";
                  "Sensor calibration recommended" ]);
    ("ERROR", [ "Temperature exceeded safety threshold";
                "Unexpected shutdown detected";
                "Sensor malfunction detected";
                "Communication timeout with control system";
                "Safety interlock triggered" ]);
    ("DEBUG", [ "Sensor reading validation completed";
                "Control loop iteration completed";
                "Memory usage check completed";
                "Network heartbeat successful";
                "Configuration parameter updated" ]) ]%string.

Definition level_weights : list (string * Q) :=
  [ ("INFO", 0.6); ("WARNING", 0.25); ("ERROR", 0.05); ("DEBUG", 0.1) ]%string%Q.

(** [d[key]] on a dictionary kept as an association list. *)
Fixpoint dict_get {V} (d : list (string * V)) (key : string) : Outcome V :=
  match d with
  | [] => Raise (KeyError key)
  | (k, v) :: d' => if String.eqb k key then Ok v else dict_get d' key
  end.

Section GeneratorCode.

(** NumPy's sine and its constant pi. *)
Variable np_sin : Q -> Q.

Variable np_pi : Q.

(** [pd.to_datetime] on a string: the timestamp, or the exception pandas
    raises on a string it cannot read. *)
Variable to_datetime : string -> Outcome Z.

(** The constructor has no handler around [pd.to_datetime]: its exception
    reaches the caller. *)
Definition __init__ (start : string) (days : Z) : Outcome Generator :=
  match to_datetime start with
  | Ok ts => Ok (mkGen ts days _create_sensor_config _create_equipment_config)
  | Raise e => Raise e
  end.

Definition is_temperature (sensor : SensorConfig) : bool :=
  String.eqb (s_type sensor) "temperature".

Definition _generate_realistic_value (sensor : SensorConfig) (timestamp : Z)
  : M Q :=
  let (min_val, max_val) := normal_range sensor in
  base_value <- random_uniform min_val max_val ;;
  let hour := hour timestamp in
  base_value <-
    (if is_temperature sensor then
       if (6 <=? hour) && (hour <=? 18) then
         offset <- random_uniform 1 3 ;; ret (base_value + offset)%Q
       else ret base_value
     else ret base_value) ;;
  let base_value :=
    if 5 <=? weekday timestamp then (base_value * 0.95)%Q else base_value in
  let base_value :=
    if is_temperature sensor then
      let day_of_year := tm_yday timestamp in
      let seasonal_adjustment :=
        (2 * np_sin (2 * np_pi * inject_Z day_of_year / 365))%Q in
      (base_value + seasonal_adjustment)%Q
    else base_value in
  ret base_value.

Definition _calculate_quality_score (sensor : SensorConfig) (value : Q) : M Q :=
  let (min_normal, max_normal) := normal_range sensor in
  let (min_alert, max_alert) := alert_threshold sensor in
  if Qle_bool min_normal value && Qle_bool value max_normal then
    random_uniform 0.95 1.0
  else if Qle_bool min_alert value && Qle_bool value max_alert then
    random_uniform 0.7 0.9
  else
    random_uniform 0.1 0.6.

(** The sensor-specific items added to a record. *)
Definition sensor_specific_fields (sensor : SensorConfig) (value rounded : Q)
  : M (list (string * Field)) :=
  if String.eqb (s_type sensor) "temperature" then
    ret [("temperature", FNum rounded); ("unit", FStr "celsius")]%string
  else if String.eqb (s_type sensor) "humidity" then
    ret [("humidity", FNum rounded); ("unit", FStr "percent")]%string
  else if String.eqb (s_type sensor) "pressure" then
    ret [("pressure", FNum rounded); ("unit", FStr "psi")]%string
  else if String.eqb (s_type sensor) "vibration" then
    nx <- np_random_normal 0 0.02 ;;
    ny <- np_random_normal 0 0.02 ;;
    nz <- np_random_normal 0 0.02 ;;
    ret [("vibration_magnitude", FNum rounded);
         ("vibration_x", FNum (py_round (value + nx) 4));
         ("vibration_y", FNum (py_round (value + ny) 4));
         ("vibration_z", FNum (py_round (value + nz) 4));
         ("unit", FStr "g")]%string
  else ret [].

(** The anomaly decision of one reading: the flag and the final value. *)
Definition inject_anomaly (sensor : SensorConfig) (base_value value : Q)
  : M (bool * Q) :=
  u <- random_random ;;
  let is_anomaly := Qlt_bool u (error_rate sensor) in
  if is_anomaly then
    anomaly_factor <- random_choice anomaly_factors ;;
    ret (is_anomaly, (base_value * anomaly_factor)%Q)
  else ret (is_anomaly, value).

(** The body of the innermost loop of [generate_sensor_data]: one record
    for one sensor at one timestamp. *)
Definition sensor_record (sensor : SensorConfig) (timestamp : Z)
  : M SensorReading :=
  base_value <- _generate_realistic_value sensor timestamp ;;
  noise <- np_random_normal 0 0.1 ;;
  let value := (base_value + noise)%Q in
  av <- inject_anomaly sensor base_value value ;;
  let (is_anomaly, value) := av : bool * Q in
  quality_score <- _calculate_quality_score sensor value ;;
  extra <- sensor_specific_fields sensor value (py_round value 3) ;;
  ret (mkReading (sensor_id sensor)
                 (s_equipment_id sensor)
                 (strftime_datetime timestamp)
                 (py_round value 3)
                 (s_type sensor)
                 (s_location sensor)
                 (if is_anomaly then "error" else "normal")
                 (py_round quality_score 3)
                 is_anomaly
                 extra).

(** A [DataFrame] built from a list of dictionaries is the list of its
    rows. *)
Definition generate_sensor_data (self : Generator) (records_per_day : Z)
  : M (list SensorReading) :=
  for_each (py_range (num_days self)) (fun day =>
    let current_date := start_date self + timedelta_days day in
    step <- lift (floordiv 1440 records_per_day) ;;
    minutes <- lift (py_range3 0 1440 step) ;;
    for_each minutes (fun minute =>
      let timestamp := current_date + timedelta_minutes minute in
      for_each (sensors self) (fun sensor =>
        record <- sensor_record sensor timestamp ;;
        ret [record]))).

Definition _generate_log_entry (equipment : EquipmentConfig) (timestamp : Z)
  : M LogEntry :=
  log_level <- np_random_choice (map fst level_weights) (map snd level_weights) ;;
  templates <- lift (dict_get log_templates log_level) ;;
  message <- random_choice templates ;;
  err <-
    (if String.eqb log_level "ERROR" then
       code <- random_randint 1000 9999 ;;
       severity <- random_choice ["LOW"; "MEDIUM"; "HIGH"; "CRITICAL"]%string ;;
       ret (Some ("ERR_" ++ str_int code)%string, Some severity)
     else ret (None, None)) ;;
  warning_code <-
    (if String.eqb log_level "WARNING" then
       code <- random_randint 100 999 ;;
       ret (Some ("WARN_" ++ str_int code)%string)
     else ret None) ;;
  cpu <- random_uniform 10 90 ;;
  memory <- random_uniform 20 80 ;;
  latency <- random_uniform 1 50 ;;
  ret (mkLog (equipment_id equipment)
             (e_name equipment)
             (strftime_datetime timestamp)
             log_level
             message
             (e_location equipment)
             (e_type equipment)
             (e_status equipment)
             (fst err) (snd err) warning_code
             (mkParams (py_round cpu 2) (py_round memory 2) (py_round latency 2))).

Definition generate_equipment_logs (self : Generator) (logs_per_day : Z)
  : M (list LogEntry) :=
  for_each (py_range (num_days self)) (fun day =>
    let current_date := start_date self + timedelta_days day in
    for_each (equipment self) (fun equipment =>
      for_each (py_range logs_per_day) (fun _ =>
        random_seconds <- random_randint 0 86399 ;;
        let timestamp := current_date + timedelta_seconds random_seconds in
        log_entry <- _generate_log_entry equipment timestamp ;;
        ret [log_entry]))).

(** The dictionary literal of [generate_quality_metrics]: its items are
    evaluated in the order they are written. *)
Definition quality_metric (equipment : EquipmentConfig) (current_date : Z)
  : M QualityMetric :=
  uptime <- random_uniform 20 24 ;;
  downtime <- random_uniform 0 4 ;;
  efficiency <- random_uniform 85 98 ;;
  errors <- random_randint 0 5 ;;
  warnings <- random_randint 0 15 ;;
  maintenance <- random_choice [true; false] ;;
  last_delta <- random_randint 1 30 ;;
  next_delta <- random_randint 1 30 ;;
  units <- random_randint 800 1200 ;;
  score <- random_uniform 0.9 1.0 ;;
  ret (mkMetric (equipment_id equipment)
                (strftime_date current_date)
                (e_location equipment)
                (py_round uptime 2)
                (py_round downtime 2)
                (py_round efficiency 2)
                errors
                warnings
                maintenance
                (strftime_date (current_date - timedelta_days last_delta))
                (strftime_date (current_date + timedelta_days next_delta))
                units
                (py_round score 3)).

Definition generate_quality_metrics (self : Generator) : M (list QualityMetric) :=
  for_each (py_range (num_days self)) (fun day =>
    let current_date := start_date self + timedelta_days day in
    for_each (equipment self) (fun equipment =>
      metric <- quality_metric equipment current_date ;;
      ret [metric])).

(** *** Writing the files

    A column of a [DataFrame] is a pandas [Series].  A column that holds
    Python strings has the [object] dtype; only a column of timestamps is
    datetime-like. *)

Inductive Series : Type :=
| ObjectSeries (values : list string)
| DatetimeSeries (values : list Z).

(** [sensor_df['timestamp']]: the records of [generate_sensor_data] hold
    their timestamp as the string made by [strftime]; a frame built from
    an empty list has no column at all. *)
Definition df_timestamp_column (df : list SensorReading) : M Series :=
  match df with
  | [] => raise (KeyError "timestamp")
  | _ => ret (ObjectSeries (map r_timestamp df))
  end.

(** [series.dt.date]: the [.dt] accessor exists on datetime-like values
    only. *)
Definition dt_date (s : Series) : M (list Z) :=
  match s with
  | DatetimeSeries values => ret (map day_number values)
  | ObjectSeries _ =>
      raise (AttributeError "Can only use .dt accessor with datetimelike values")
  end.

(** [.unique()]: the distinct values in order of first appearance. *)
Fixpoint unique_from (seen : list Z) (l : list Z) : list Z :=
  match l with
  | [] => []
  | x :: l' =>
      if existsb (Z.eqb x) seen then unique_from seen l'
      else x :: unique_from (x :: seen) l'
  end.

Definition unique (l : list Z) : list Z := unique_from [] l.

Definition write_file (path : string) (c : FileContent) : M unit :=
  fun w => (Ok tt, add_file w path c).

(** [datetime.now()] *)
Definition datetime_now : M Z := fun w => (Ok (clock w), w).

(** A [for] loop run for its effects only. *)
Fixpoint for_ {A} (xs : list A) (body : A -> M unit) : M unit :=
  match xs with
  | [] => ret tt
  | x :: xs' => body x ;;; for_ xs' body
  end.

(** [if date not in d: d[date] = []] followed by [d[date].append(log)],
    on a dictionary kept in insertion order. *)
Fixpoint dict_append (d : list (string * list LogEntry))
         (date : string) (log : LogEntry) : list (string * list LogEntry) :=
  match d with
  | [] => [(date, [log])]
  | (k, v) :: d' =>
      if String.eqb k date then (k, v ++ [log]) :: d'
      else (k, v) :: dict_append d' date log
  end.

(** The date key of a log entry: [log['timestamp'][:10]]. *)
Definition log_date (log : LogEntry) : string := prefix 10 (l_timestamp log).

(** The loop that fills [logs_by_date]. *)
Definition split_logs_by_date (logs : list LogEntry)
  : list (string * list LogEntry) :=
  fold_left (fun d log => dict_append d (log_date log) log) logs [].

(** The split of the sensor frame by date. *)
Definition save_sensor_data_by_date (output_dir : string)
           (sensor_df : list SensorReading) : M unit :=
  column <- df_timestamp_column sensor_df ;;
  dates <- dt_date column ;;
  for_ (unique dates) (fun date =>
    column <- df_timestamp_column sensor_df ;;
    row_dates <- dt_date column ;;
    let date_df :=
      map fst (filter (fun p => snd p =? date) (combine sensor_df row_dates)) in
    let date_str := strftime_date (timedelta_days date) in
    let date_dir := (output_dir ++ "/sensor_data_by_date/" ++ date_str)%string in
    write_file (date_dir ++ "/sensor_data_" ++ date_str ++ ".csv")%string
               (SensorCsv date_df)).

(** The split of the logs by date. *)
Definition save_logs_by_date (output_dir : string) (logs : list LogEntry)
  : M unit :=
  for_ (split_logs_by_date logs) (fun item =>
    let (date, date_logs) := item : string * list LogEntry in
    let date_dir := (output_dir ++ "/equipment_logs_by_date/" ++ date)%string in
    write_file (date_dir ++ "/equipment_logs_" ++ date ++ ".json")%string
               (LogsJson date_logs)).

Definition len {A} (l : list A) : Z := Z.of_nat (List.length l).

(** [save_data]; the directories made by [os.makedirs] and the lines
    printed are not part of the world. *)
Definition save_data (self : Generator) (output_dir : string) : M unit :=
  sensor_df <- generate_sensor_data self 1440 ;;
  write_file (output_dir ++ "/sensor_data.csv")%string (SensorCsv sensor_df) ;;;
  save_sensor_data_by_date output_dir sensor_df ;;;
  logs <- generate_equipment_logs self 100 ;;
  write_file (output_dir ++ "/equipment_logs.json")%string (LogsJson logs) ;;;
  save_logs_by_date output_dir logs ;;;
  quality_df <- generate_quality_metrics self ;;
  write_file (output_dir ++ "/quality_metrics.csv")%string (MetricsCsv quality_df) ;;;
  now <- datetime_now ;;
  let summary :=
    mkSummary (strftime_datetime now)
              (strftime_date (start_date self))
              (strftime_date (start_date self + timedelta_days (num_days self)))
              (num_days self)
              (len sensor_df) (len logs) (len quality_df)
              (len (sensors self)) (len (equipment self)) in
  write_file (output_dir ++ "/data_summary.json")%string (SummaryJson summary).

End GeneratorCode.

(* ================================================================== *)
(** * Vocabulary of the properties *)

(* ------------------------------------------------------------------ *)
(** ** Runs of computations *)

(** [c] run in [w] returns normally and its result and final world
    satisfy [P]. *)
Definition ok_with {A} (c : M A) (w : World) (P : A -> World -> Prop) : Prop :=
  exists a w', c w = (Ok a, w') /\ P a w'.

(** What a generator may change: the cursors of the tapes, nothing else. *)
Record evolves (w w' : World) : Prop := mkEvolves {
  ev_py : draws (py_random w') = draws (py_random w);
  ev_np_normal : draws (np_normal w') = draws (np_normal w);
  ev_np_uniform : draws (np_uniform w') = draws (np_uniform w);
  ev_clock : clock w' = clock w;
  ev_files : files w' = files w
}.

(** In every well-formed world [c] returns normally, its result
    satisfies [P], and the world only evolves. *)
Definition safe_with {A} (P : A -> Prop) (c : M A) : Prop :=
  forall w, world_ok w -> ok_with c w (fun a w' => P a /\ evolves w w').

(** The rows of a run, or no rows when the run raised. *)
Definition rows_of {A} (run : Outcome (list A) * World) : list A :=
  match fst run with
  | Ok rows => rows
  | Raise _ => []
  end.

(** The value of [random.uniform(a, b)] for the draw [u]. *)
Definition uniform_value (a b u : Q) : Q := (a + (b - a) * u)%Q.

Fixpoint advance_by (n : nat) (t : Tape) : Tape :=
  match n with
  | O => t
  | S n' => advance_by n' (advance t)
  end.

(* ------------------------------------------------------------------ *)
(** ** Sample inputs *)

(** A tape of draws in [[0, 1)] that is not constant. *)
Definition sample_draws (n : nat) : Q := (Z.of_nat (37 * n + 11) mod 100) # 100.

Definition sample_world : World :=
  mkWorld (mkTape sample_draws 0)
          (mkTape (fun n => (Z.of_nat n mod 7 - 3) # 2) 0)
          (mkTape sample_draws 5)
          1762128000
          [].

(** A polynomial stand-in for [np.sin] and a decimal one for [np.pi], to
    run the generator on sample inputs. *)
Definition sample_sin (x : Q) : Q :=
  Qred (x - x * x * x / 6 + x * x * x * x * x / 120)%Q.

Definition sample_pi : Q := 3.141592653589793%Q.

Definition temp_001 : SensorConfig :=
  mkSensor "TEMP_001" "EQ_FURNACE_01" "temperature" "Production Line A"
           (20, 25)%Q (15, 35)%Q 0.02%Q.

(** 2024-01-01 00:00:00, a Monday. *)
Definition ts_2024_01_01 : Z := timedelta_days 19723.

(** A Saturday at noon: 2024-01-06 12:00:00. *)
Definition ts_saturday_noon : Z := timedelta_days 19728 + 3600 * 12.

Definition sample_generator : Generator :=
  mkGen ts_2024_01_01 1 _create_sensor_config _create_equipment_config.

Definition two_day_generator : Generator :=
  mkGen ts_2024_01_01 2 _create_sensor_config _create_equipment_config.

(** A reader of dates written [YYYY-MM-DD].  It reads nothing else,
    where [pd.to_datetime] reads many more forms. *)
Definition digit_value (c : ascii) : option Z :=
  let n := Z.of_nat (nat_of_ascii c) in
  if (48 <=? n) && (n <=? 57) then Some (n - 48) else None.

Fixpoint digits_value (acc : Z) (cs : list ascii) : option Z :=
  match cs with
  | [] => Some acc
  | c :: cs' =>
      match digit_value c with
      | Some d => digits_value (10 * acc + d) cs'
      | None => None
      end
  end.

Definition parse_iso_date (s : string) : option Z :=
  match list_ascii_of_string s with
  | [y1; y2; y3; y4; s1; m1; m2; s2; d1; d2] =>
      if Ascii.eqb s1 "-" && Ascii.eqb s2 "-" then
        match digits_value 0 [y1; y2; y3; y4],
              digits_value 0 [m1; m2],
              digits_value 0 [d1; d2] with
        | Some y, Some m, Some d =>
            let days := days_from_civil y m d in
            let '(y', m', d') := civil_from_days days in
            if (y' =? y) && (m' =? m) && (d' =? d)
            then Some (timedelta_days days) else None
        | _, _, _ => None
        end
      else None
  | _ => None
  end.

(** [parse_iso_date] as a parser that raises on what it does not read. *)
Definition sample_to_datetime (s : string) : Outcome Z :=
  match parse_iso_date s with
  | Some ts => Ok ts
  | None => Raise (ValueError "Unknown datetime string format")
  end.

(* ------------------------------------------------------------------ *)
(** ** Sensor readings *)

Definition in_range (r : Q * Q) (v : Q) : Prop :=
  (fst r <= v /\ v <= snd r)%Q.

(** The daily pattern applies to temperature sensors between 6 and 18
    o'clock, both ends included. *)
Definition day_shift (sensor : SensorConfig) (ts : Z) : bool :=
  is_temperature sensor && ((6 <=? hour ts) && (hour ts <=? 18)).

(** The number of draws [_generate_realistic_value] takes from the tape of
    the [random] module. *)
Definition value_draws (sensor : SensorConfig) (ts : Z) : nat :=
  if day_shift sensor ts then 2%nat else 1%nat.

(** What [sensor_record] returns, given the base value [base], the noise
    and the two draws [u] and [u'] that follow the base value on the tape
    of the [random] module. *)
Definition anomaly_rule (sensor : SensorConfig) (base noise u u' : Q)
           (record : SensorReading) : Prop :=
  ((u < error_rate sensor)%Q ->
   exists f,
     In f anomaly_factors
     /\ nth_error anomaly_factors (Z.to_nat (Qfloor (u' * inject_Z 4))) = Some f
     /\ r_value record = py_round (base * f) 3
     /\ r_is_anomaly record = true
     /\ r_status record = "error"%string)
  /\ (~ (u < error_rate sensor)%Q ->
      r_value record = py_round (base + noise) 3
      /\ r_is_anomaly record = false
      /\ r_status record = "normal"%string)
  /\ (r_status record = "error"%string <-> r_is_anomaly record = true).

(** [record] is what the loop body made for a configured sensor. *)
Definition produced (np_sin : Q -> Q) (np_pi : Q) (self : Generator)
           (record : SensorReading) : Prop :=
  exists sensor ts w0,
    In sensor (sensors self)
    /\ uniform_tape (py_random w0)
    /\ fst (sensor_record np_sin np_pi sensor ts w0) = Ok record.

(** [record] was built by the loop body from a base value and obeys the
    anomaly rule for the draws that followed the base value. *)
Definition follows_anomaly_rule (np_sin : Q -> Q) (np_pi : Q)
           (self : Generator) (record : SensorReading) : Prop :=
  exists sensor ts w0 base,
    In sensor (sensors self)
    /\ fst (_generate_realistic_value np_sin np_pi sensor ts w0) = Ok base
    /\ fst (sensor_record np_sin np_pi sensor ts w0) = Ok record
    /\ anomaly_rule sensor base
         (0 + 0.1 * peek (np_normal w0))%Q
         (peek (advance_by (value_draws sensor ts) (py_random w0)))
         (peek (advance (advance_by (value_draws sensor ts) (py_random w0))))
         record.

(** The number of minutes [range(0, 1440, step)] yields for a positive
    step. *)
Definition minutes_per_day (step : Z) : Z := (1440 + step - 1) / step.

(** The number of rows [generate_sensor_data] builds for a positive step. *)
Definition sensor_rows (self : Generator) (step : Z) : nat :=
  (Z.to_nat (num_days self)
   * (Z.to_nat (minutes_per_day step) * List.length (sensors self)))%nat.

(* ------------------------------------------------------------------ *)
(** ** Logs and metrics *)

(** The number of entries [generate_equipment_logs] builds. *)
Definition log_rows (self : Generator) (logs_per_day : Z) : nat :=
  (Z.to_nat (num_days self)
   * (List.length (equipment self) * Z.to_nat logs_per_day))%nat.

Definition four_digit_year (days : Z) : Prop :=
  0 <= year (timedelta_days days) <= 9999.

(** The three date strings of a metric are the renderings of three days:
    the last maintenance lies 1 to 30 days before the day of the record
    and the next maintenance 1 to 30 days after it.  When the years have
    four digits the strings are read back as exactly these days. *)
Definition maintenance_dates_consistent (metric : QualityMetric) : Prop :=
  exists current last next : Z,
    m_date metric = strftime_date (timedelta_days current)
    /\ last_maintenance_date metric = strftime_date (timedelta_days last)
    /\ next_maintenance_date metric = strftime_date (timedelta_days next)
    /\ 1 <= current - last <= 30
    /\ 1 <= next - current <= 30
    /\ (four_digit_year last -> four_digit_year current -> four_digit_year next ->
        parse_iso_date (m_date metric) = Some (timedelta_days current)
        /\ parse_iso_date (last_maintenance_date metric)
           = Some (timedelta_days last)
        /\ parse_iso_date (next_maintenance_date metric)
           = Some (timedelta_days next)).

(* ------------------------------------------------------------------ *)
(** ** Saving *)

Definition dt_accessor_error : Exception :=
  AttributeError "Can only use .dt accessor with datetimelike values".

(** The state of the loop that fills [logs_by_date] after the entries
    [seen]: the lists hold these entries once, under distinct dates, each
    entry under its own date. *)
Record split_invariant (d : list (string * list LogEntry))
       (seen : list LogEntry) : Prop := mkSplitInv {
  si_perm : Permutation (List.concat (map snd d)) seen;
  si_keys : NoDup (map fst d);
  si_dates : Forall (fun item => Forall (fun log => log_date log = fst item)
                                        (snd item)) d
}.

(* ------------------------------------------------------------------ *)
(** ** The calendar *)

(** The check of one day of the era that starts on 0000-03-01: the date
    of the day leads back to the day, and is a month and a day of the
    month. *)
Definition civil_day_ok (doe : Z) : bool :=
  let '(y, m, d) := civil_from_days (doe - 719468) in
  (days_from_civil y m d =? doe - 719468)
  && (1 <=? m) && (m <=? 12) && (1 <=? d) && (d <=? 31)
  && (0 <=? y) && (y <=? 400).

(** [f] holds on the [n] integers from [i] on. *)
Fixpoint all_from (n : nat) (i : Z) (f : Z -> bool) : bool :=
  match n with
  | O => true
  | S n' => f i && all_from n' (i + 1) f
  end.

(* ================================================================== *)
(** * Vocabulary of the further properties *)

(* ------------------------------------------------------------------ *)
(** ** The columns of a reading that no draw decides *)

(** The timestamp and the configuration columns of a record. *)
Definition reading_key (record : SensorReading)
  : string * string * string * string * string :=
  (r_timestamp record, r_sensor_id record, r_equipment_id record,
   r_sensor_type record, r_location record).

(** The same columns, as the configuration [sensor] gives them at [ts]. *)
Definition sensor_key (ts : Z) (sensor : SensorConfig)
  : string * string * string * string * string :=
  (strftime_datetime ts, sensor_id sensor, s_equipment_id sensor,
   s_type sensor, s_location sensor).

(** The minutes [0, step, 2 * step, ...] below 1440. *)
Definition day_minutes (step : Z) : list Z :=
  map (fun k => Z.of_nat k * step) (seq 0 (Z.to_nat (minutes_per_day step))).

(** Day by day, minute by minute, sensor by sensor. *)
Definition sensor_grid (self : Generator) (step : Z)
  : list (string * string * string * string * string) :=
  flat_map (fun day =>
    flat_map (fun minute =>
      map (sensor_key (start_date self + timedelta_days day
                       + timedelta_minutes minute))
          (sensors self))
      (day_minutes step))
    (py_range (num_days self)).

(** The sensor-specific items of a record, by sensor type: the item named
    after the measured quantity repeats the rounded value and the unit is
    fixed by the type. *)
Definition extra_fields_consistent (record : SensorReading) : Prop :=
  (r_sensor_type record = "temperature"%string
   /\ r_extra record = [("temperature", FNum (r_value record));
                        ("unit", FStr "celsius")]%string)
  \/ (r_sensor_type record = "humidity"%string
      /\ r_extra record = [("humidity", FNum (r_value record));
                           ("unit", FStr "percent")]%string)
  \/ (r_sensor_type record = "pressure"%string
      /\ r_extra record = [("pressure", FNum (r_value record));
                           ("unit", FStr "psi")]%string)
  \/ (r_sensor_type record = "vibration"%string
      /\ exists x y z,
           r_extra record = [("vibration_magnitude", FNum (r_value record));
                             ("vibration_x", FNum x);
                             ("vibration_y", FNum y);
                             ("vibration_z", FNum z);
                             ("unit", FStr "g")]%string)
  \/ (r_sensor_type record <> "temperature"%string
      /\ r_sensor_type record <> "humidity"%string
      /\ r_sensor_type record <> "pressure"%string
      /\ r_sensor_type record <> "vibration"%string
      /\ r_extra record = []).

(** The band of the rounded score tells the range of the value, and the
    range of the value tells the band. *)
Definition band_matches (sensor : SensorConfig) (value score : Q) : Prop :=
  (in_range (normal_range sensor) value <-> (0.95 <= score)%Q)
  /\ (~ in_range (normal_range sensor) value
      /\ in_range (alert_threshold sensor) value
      <-> (0.7 <= score /\ score <= 0.9)%Q)
  /\ (~ in_range (normal_range sensor) value
      /\ ~ in_range (alert_threshold sensor) value
      <-> (score <= 0.6)%Q).

(** [record] was scored on a final value [value] that it holds rounded. *)
Definition scored_on_final_value (self : Generator) (record : SensorReading)
  : Prop :=
  exists sensor value,
    In sensor (sensors self)
    /\ r_sensor_id record = sensor_id sensor
    /\ r_value record = py_round value 3
    /\ band_matches sensor value (r_quality_score record).

(* ------------------------------------------------------------------ *)
(** ** Further sample inputs *)

Definition vib_001 : SensorConfig :=
  mkSensor "VIB_001" "EQ_MOTOR_01" "vibration" "Motor Assembly"
           (0.1, 0.3)%Q (0.05, 0.8)%Q 0.03%Q.

Definition hum_001 : SensorConfig :=
  mkSensor "HUM_001" "EQ_CHAMBER_01" "humidity" "Quality Control"
           (45, 55)%Q (30, 70)%Q 0.01%Q.

(** A world whose first draws make an anomaly of factor 1.5 out of the
    base value 0.15. *)
Definition anomaly_world : World :=
  mkWorld (mkTape (fun n => match n with
                            | 0%nat => 0.25
                            | 1%nat => 0.01
                            | 2%nat => 0.6
                            | _ => 0.5
                            end)%Q 0)
          (mkTape (fun _ => 0%Q) 0)
          (mkTape (fun _ => 0.5%Q) 0)
          0
          [].

(** [record] names an equipment of the generator, at the same location. *)
Definition references_equipment (self : Generator) (record : SensorReading)
  : Prop :=
  exists e,
    In e (equipment self)
    /\ equipment_id e = r_equipment_id record
    /\ e_location e = r_location record.

(** The same check on the configuration tables, as a test. *)
Definition sensor_has_equipment (equipments : list EquipmentConfig)
           (sensor : SensorConfig) : bool :=
  existsb (fun e => String.eqb (equipment_id e) (s_equipment_id sensor)
                    && String.eqb (e_location e) (s_location sensor))
          equipments.

(* ------------------------------------------------------------------ *)
(** ** Log entries *)

Definition severities : list string := ["LOW"; "MEDIUM"; "HIGH"; "CRITICAL"]%string.

(** The error items of an entry: present on the level ERROR only. *)
Definition error_items_ok (level : string) (err : option string * option string)
  : Prop :=
  (level = "ERROR"%string
   /\ (exists code, 1000 <= code <= 9999
                    /\ fst err = Some ("ERR_" ++ str_int code)%string)
   /\ (exists severity, In severity severities /\ snd err = Some severity))
  \/ (level <> "ERROR"%string /\ err = (None, None)).

(** The warning item of an entry: present on the level WARNING only. *)
Definition warning_item_ok (level : string) (warning : option string) : Prop :=
  (level = "WARNING"%string
   /\ exists code, 100 <= code <= 999
                   /\ warning = Some ("WARN_" ++ str_int code)%string)
  \/ (level <> "WARNING"%string /\ warning = None).

(** What [_generate_log_entry] returns for [equipment] at [ts]. *)
Definition log_entry_well_formed (equipment : EquipmentConfig) (ts : Z)
           (log : LogEntry) : Prop :=
  (l_equipment_id log, l_equipment_name log, l_location log,
   l_equipment_type log, l_status log)
  = (equipment_id equipment, e_name equipment, e_location equipment,
     e_type equipment, e_status equipment)
  /\ l_timestamp log = strftime_datetime ts
  /\ (exists templates,
        dict_get log_templates (l_log_level log) = Ok templates
        /\ In (l_message log) templates)
  /\ error_items_ok (l_log_level log) (l_error_code log, l_severity log)
  /\ warning_item_ok (l_log_level log) (l_warning_code log)
  /\ (10 <= cpu_usage (l_parameters log)
      /\ cpu_usage (l_parameters log) <= 90)%Q
  /\ (20 <= memory_usage (l_parameters log)
      /\ memory_usage (l_parameters log) <= 80)%Q
  /\ (1 <= network_latency (l_parameters log)
      /\ network_latency (l_parameters log) <= 50)%Q.

(** [log] was made for an equipment of the generator, on one of its days,
    at some second of that day counted from the start time. *)
Definition log_from (self : Generator) (log : LogEntry) : Prop :=
  exists unit_ day seconds,
    In unit_ (equipment self)
    /\ 0 <= day < num_days self
    /\ 0 <= seconds <= 86399
    /\ log_entry_well_formed unit_
         (start_date self + timedelta_days day + timedelta_seconds seconds)
         log.

(** The date of [log] is that of a day of the generator or, when the
    start date has a time of day, possibly the day after. *)
Definition log_on_generated_day (self : Generator) (log : LogEntry) : Prop :=
  exists day,
    0 <= day < num_days self
    /\ (log_date log = strftime_date (start_date self + timedelta_days day)
        \/ log_date log
           = strftime_date (start_date self + timedelta_days (day + 1)))
    /\ (second_of_day (start_date self) = 0 ->
        log_date log = strftime_date (start_date self + timedelta_days day)).

(* ------------------------------------------------------------------ *)
(** ** The split of the logs by date *)

(** [log] carries the date [date]. *)
Definition has_date (date : string) (log : LogEntry) : bool :=
  String.eqb (log_date log) date.

(** The dates of [logs] that are not in [known], each once, in the order
    in which they first appear. *)
Fixpoint dates_in_order (known : list string) (logs : list LogEntry)
  : list string :=
  match logs with
  | [] => []
  | log :: rest =>
      if existsb (String.eqb (log_date log)) known
      then dates_in_order known rest
      else log_date log :: dates_in_order (known ++ [log_date log]) rest
  end.

(** The entries [logs] grouped under the dates [dates]. *)
Definition groups_by_date (dates : list string) (logs : list LogEntry)
  : list (string * list LogEntry) :=
  map (fun date => (date, filter (has_date date) logs)) dates.

(* ------------------------------------------------------------------ *)
(** ** Quality metrics, column by column *)

(** The columns of a metric that no draw decides. *)
Definition metric_key (metric : QualityMetric) : string * string * string :=
  (m_equipment_id metric, m_date metric, m_location metric).

(** Day by day, equipment by equipment. *)
Definition metric_grid (self : Generator) : list (string * string * string) :=
  flat_map (fun day =>
    map (fun e => (equipment_id e,
                   strftime_date (start_date self + timedelta_days day),
                   e_location e))
        (equipment self))
    (py_range (num_days self)).

(** The ranges of the drawn columns, after rounding. *)
Definition metric_in_ranges (metric : QualityMetric) : Prop :=
  (20 <= uptime_hours metric /\ uptime_hours metric <= 24)%Q
  /\ (0 <= downtime_hours metric /\ downtime_hours metric <= 4)%Q
  /\ (85 <= efficiency_percentage metric
      /\ efficiency_percentage metric <= 98)%Q
  /\ 0 <= error_count metric <= 5
  /\ 0 <= warning_count metric <= 15
  /\ 800 <= production_units metric <= 1200
  /\ (0.9 <= m_quality_score metric /\ m_quality_score metric <= 1.0)%Q.

(** A generator without days. *)
Definition empty_generator : Generator :=
  mkGen ts_2024_01_01 0 _create_sensor_config _create_equipment_config.


(* ================================================================== *)
(** * Properties *)

(* ------------------------------------------------------------------ *)
(** ** Tapes and comparisons *)

Lemma uniform_tape_advance t : uniform_tape t -> uniform_tape (advance t).
Proof. intros H n. exact (H n). Qed.

Lemma uniform_tape_peek t :
  uniform_tape t -> (0 <= peek t /\ peek t < 1)%Q.
Proof. intros H. exact (H (pos t)). Qed.

Lemma Qlt_bool_iff x y : Qlt_bool x y = true <-> (x < y)%Q.
Proof.
  unfold Qlt_bool. rewrite negb_true_iff. split.
  - intros H. apply Qnot_le_lt. intros Hle.
    apply Qle_bool_iff in Hle. congruence.
  - intros H. destruct (Qle_bool y x) eqn:E; [|reflexivity].
    apply Qle_bool_iff in E. exfalso. apply (Qlt_not_le _ _ H E).
Qed.

(* ------------------------------------------------------------------ *)
(** ** The rendering of timestamps, on examples *)

Example strftime_2024_01_01 :
  strftime_datetime (86400 * 19723 + 3600 * 13 + 60 * 7 + 9)
  = "2024-01-01 13:07:09"%string.
Proof. reflexivity. Qed.

Example strftime_leap_day :
  strftime_date (timedelta_days (19723 + 59)) = "2024-02-29"%string
  /\ tm_yday (timedelta_days (19723 + 59)) = 60
  /\ weekday (timedelta_days 19723) = 0
  /\ weekday (timedelta_days (19723 + 5)) = 5
  /\ tm_yday (timedelta_days (19723 + 365)) = 366
  /\ strftime_date (timedelta_days (19723 + 366)) = "2025-01-01"%string.
Proof. repeat split; reflexivity. Qed.

(* ------------------------------------------------------------------ *)
(** ** Runs of computations *)

Lemma ok_ret {A} (a : A) w (P : A -> World -> Prop) :
  P a w -> ok_with (ret a) w P.
Proof. intros H. exists a, w. split; [reflexivity | exact H]. Qed.

Lemma ok_bind {A B} (c : M A) (k : A -> M B) w (P : B -> World -> Prop) :
  ok_with c w (fun a w' => ok_with (k a) w' P) -> ok_with (bind c k) w P.
Proof.
  intros (a & w1 & Hc & b & w2 & Hk & HP).
  exists b, w2. split; [|exact HP].
  unfold bind. rewrite Hc. exact Hk.
Qed.

Lemma ok_weaken {A} (c : M A) w (P P' : A -> World -> Prop) :
  ok_with c w P -> (forall a w', P a w' -> P' a w') -> ok_with c w P'.
Proof.
  intros (a & w' & Hc & HP) Himp. exists a, w'. split; [exact Hc | auto].
Qed.

Lemma bind_ok {A B} (c : M A) (k : A -> M B) w a w' :
  c w = (Ok a, w') -> bind c k w = k a w'.
Proof. intros H. unfold bind. rewrite H. reflexivity. Qed.

(* ------------------------------------------------------------------ *)
(** ** Evolution of the world *)

Lemma evolves_refl w : evolves w w.
Proof. constructor; reflexivity. Qed.

Lemma evolves_trans w1 w2 w3 : evolves w1 w2 -> evolves w2 w3 -> evolves w1 w3.
Proof.
  intros [a b c d e] [a' b' c' d' e'].
  constructor; etransitivity; eassumption.
Qed.

Lemma evolves_ok w w' : evolves w w' -> world_ok w -> world_ok w'.
Proof.
  intros [Hpy _ Hnu _ _] [H1 H2]. split; intros n.
  - rewrite Hpy. apply H1.
  - rewrite Hnu. apply H2.
Qed.

(* ------------------------------------------------------------------ *)
(** ** The draws of [random.uniform] and of an index *)

Lemma random_uniform_run a b w :
  random_uniform a b w
  = (Ok (uniform_value a b (peek (py_random w))),
     set_py w (advance (py_random w))).
Proof. reflexivity. Qed.

Lemma uniform_value_bounds a b u :
  (a <= b)%Q -> (0 <= u)%Q -> (u < 1)%Q ->
  (a <= uniform_value a b u /\ uniform_value a b u <= b)%Q.
Proof.
  intros Hab Hu0 Hu1. unfold uniform_value.
  assert (H0 : (0 <= (b - a) * u)%Q).
  { apply Qmult_le_0_compat; lra. }
  assert (H1 : ((b - a) * u <= (b - a) * 1)%Q).
  { rewrite !(Qmult_comm (b - a)). apply Qmult_le_compat_r; lra. }
  split; lra.
Qed.

Lemma ok_random_uniform a b w (P : Q -> World -> Prop) :
  P (uniform_value a b (peek (py_random w))) (set_py w (advance (py_random w))) ->
  ok_with (random_uniform a b) w P.
Proof. intros H. eexists _, _. split; [apply random_uniform_run | exact H]. Qed.

Lemma randbelow_run n w :
  randbelow n w
  = (Ok (Qfloor (peek (py_random w) * inject_Z n)),
     set_py w (advance (py_random w))).
Proof. reflexivity. Qed.

(** With a draw in [[0, 1)], the index is below [n]. *)
Lemma randbelow_bounds u n :
  0 < n -> (0 <= u)%Q -> (u < 1)%Q ->
  0 <= Qfloor (u * inject_Z n) < n.
Proof.
  intros Hn Hu0 Hu1.
  assert (HnQ : (0 < inject_Z n)%Q).
  { change 0%Q with (inject_Z 0). rewrite <- Zlt_Qlt. exact Hn. }
  split.
  - rewrite <- (Qfloor_Z 0) at 1. apply Qfloor_resp_le.
    change (inject_Z 0) with 0%Q. apply Qmult_le_0_compat; lra.
  - assert (Hlt : (inject_Z (Qfloor (u * inject_Z n)) < inject_Z n)%Q).
    { eapply Qle_lt_trans; [apply Qfloor_le|].
      rewrite <- (Qmult_1_l (inject_Z n)) at 2.
      apply Qmult_lt_compat_r; assumption. }
    rewrite <- Zlt_Qlt in Hlt. exact Hlt.
Qed.

(* ------------------------------------------------------------------ *)
(** ** The sample world *)

Lemma sample_draws_uniform : uniform_tape (mkTape sample_draws 0).
Proof.
  intros n. cbn [draws]. unfold sample_draws.
  pose proof (Z.mod_pos_bound (Z.of_nat (37 * n + 11)) 100 ltac:(lia)) as [H0 H1].
  unfold Qle, Qlt. cbn [Qnum Qden]. split; lia.
Qed.

Lemma sample_world_ok : world_ok sample_world.
Proof.
  split; [exact sample_draws_uniform|].
  intros n. exact (sample_draws_uniform n).
Qed.

(* ------------------------------------------------------------------ *)
(** ** Quality scoring *)

Lemma in_range_test r v :
  Qle_bool (fst r) v && Qle_bool v (snd r) = true <-> in_range r v.
Proof.
  unfold in_range. rewrite andb_true_iff, !Qle_bool_iff. reflexivity.
Qed.

Lemma calculate_quality_score_run sensor value w :
  _calculate_quality_score sensor value w
  = (Ok (if Qle_bool (fst (normal_range sensor)) value
            && Qle_bool value (snd (normal_range sensor))
         then uniform_value 0.95 1.0 (peek (py_random w))
         else if Qle_bool (fst (alert_threshold sensor)) value
                 && Qle_bool value (snd (alert_threshold sensor))
         then uniform_value 0.7 0.9 (peek (py_random w))
         else uniform_value 0.1 0.6 (peek (py_random w))),
     set_py w (advance (py_random w))).
Proof.
  unfold _calculate_quality_score.
  destruct (normal_range sensor) as [lo hi], (alert_threshold sensor) as [alo ahi].
  simpl fst; simpl snd.
  destruct (Qle_bool lo value && Qle_bool value hi);
    [|destruct (Qle_bool alo value && Qle_bool value ahi)];
    apply random_uniform_run.
Qed.

(** C1. For every sensor configuration and every final value,
    [_calculate_quality_score] returns normally, consumes one uniform draw
    [u] and picks the band by closed-interval comparison: when
    [normal_min <= value <= normal_max] the score is [random.uniform(0.95, 1.0)]
    at [u], hence in [[0.95, 1.0]]; otherwise when
    [alert_min <= value <= alert_max] it is [random.uniform(0.7, 0.9)] at
    [u], hence in [[0.7, 0.9]]; otherwise it is [random.uniform(0.1, 0.6)]
    at [u], hence in [[0.1, 0.6]].  In particular a value equal to
    [normal_max] (of a range with [normal_min <= normal_max]) is scored in
    the high band. *)
Theorem calculate_quality_score_bands (sensor : SensorConfig) (value : Q) (w : World) :
  uniform_tape (py_random w) ->
  exists score,
    _calculate_quality_score sensor value w
      = (Ok score, set_py w (advance (py_random w)))
    /\ (in_range (normal_range sensor) value ->
        score = uniform_value 0.95 1.0 (peek (py_random w))
        /\ (0.95 <= score /\ score <= 1.0)%Q)
    /\ (~ in_range (normal_range sensor) value ->
        in_range (alert_threshold sensor) value ->
        score = uniform_value 0.7 0.9 (peek (py_random w))
        /\ (0.7 <= score /\ score <= 0.9)%Q)
    /\ (~ in_range (normal_range sensor) value ->
        ~ in_range (alert_threshold sensor) value ->
        score = uniform_value 0.1 0.6 (peek (py_random w))
        /\ (0.1 <= score /\ score <= 0.6)%Q)
    /\ ((fst (normal_range sensor) <= snd (normal_range sensor))%Q ->
        value == snd (normal_range sensor) ->
        (0.95 <= score /\ score <= 1.0)%Q).
Proof.
  intros Htape.
  destruct (uniform_tape_peek _ Htape) as [Hu0 Hu1].
  eexists. split; [apply calculate_quality_score_run|].
  pose proof (in_range_test (normal_range sensor) value) as Hn.
  pose proof (in_range_test (alert_threshold sensor) value) as Ha.
  destruct (Qle_bool (fst (normal_range sensor)) value
            && Qle_bool value (snd (normal_range sensor))) eqn:En.
  - assert (Hin : in_range (normal_range sensor) value) by (apply Hn; reflexivity).
    assert (Hb : (0.95 <= uniform_value 0.95 1.0 (peek (py_random w))
                  /\ uniform_value 0.95 1.0 (peek (py_random w)) <= 1.0)%Q)
      by (apply uniform_value_bounds; [lra | assumption | assumption]).
    repeat split; intros; try contradiction; apply Hb.
  - assert (Hout : ~ in_range (normal_range sensor) value).
    { intros H. apply Hn in H. discriminate. }
    destruct (Qle_bool (fst (alert_threshold sensor)) value
              && Qle_bool value (snd (alert_threshold sensor))) eqn:Ea.
    + assert (Hin : in_range (alert_threshold sensor) value) by (apply Ha; reflexivity).
      assert (Hb : (0.7 <= uniform_value 0.7 0.9 (peek (py_random w))
                    /\ uniform_value 0.7 0.9 (peek (py_random w)) <= 0.9)%Q)
        by (apply uniform_value_bounds; [lra | assumption | assumption]).
      repeat split; intros; try contradiction; try apply Hb.
      all: exfalso; apply Hout; unfold in_range; split; lra.
    + assert (Hout' : ~ in_range (alert_threshold sensor) value).
      { intros H. apply Ha in H. discriminate. }
      assert (Hb : (0.1 <= uniform_value 0.1 0.6 (peek (py_random w))
                    /\ uniform_value 0.1 0.6 (peek (py_random w)) <= 0.6)%Q)
        by (apply uniform_value_bounds; [lra | assumption | assumption]).
      repeat split; intros; try contradiction; try apply Hb.
      all: exfalso; apply Hout; unfold in_range; split; lra.
Qed.

(** The theorem at TEMP_001 and the value 25, its [normal_max]. *)
Lemma calculate_quality_score_bands_witness :
  exists score,
    _calculate_quality_score temp_001 25 sample_world
      = (Ok score, set_py sample_world (advance (py_random sample_world)))
    /\ (in_range (normal_range temp_001) 25 ->
        score = uniform_value 0.95 1.0 (peek (py_random sample_world))
        /\ (0.95 <= score /\ score <= 1.0)%Q)
    /\ (~ in_range (normal_range temp_001) 25 ->
        in_range (alert_threshold temp_001) 25 ->
        score = uniform_value 0.7 0.9 (peek (py_random sample_world))
        /\ (0.7 <= score /\ score <= 0.9)%Q)
    /\ (~ in_range (normal_range temp_001) 25 ->
        ~ in_range (alert_threshold temp_001) 25 ->
        score = uniform_value 0.1 0.6 (peek (py_random sample_world))
        /\ (0.1 <= score /\ score <= 0.6)%Q)
    /\ ((fst (normal_range temp_001) <= snd (normal_range temp_001))%Q ->
        25 == snd (normal_range temp_001) ->
        (0.95 <= score /\ score <= 1.0)%Q).
Proof.
  apply (calculate_quality_score_bands temp_001 25 sample_world).
  exact sample_draws_uniform.
Defined.

(* ------------------------------------------------------------------ *)
(** ** The value generator *)

Lemma uniform_tape_advance_by n t : uniform_tape t -> uniform_tape (advance_by n t).
Proof.
  revert t. induction n as [|n IH]; intros t H; simpl; [exact H|].
  apply IH, uniform_tape_advance, H.
Qed.

Lemma is_temperature_spec sensor :
  is_temperature sensor = true <-> s_type sensor = "temperature"%string.
Proof. unfold is_temperature. apply String.eqb_eq. Qed.

Lemma generate_realistic_value_run np_sin np_pi sensor ts w :
  _generate_realistic_value np_sin np_pi sensor ts w
  = (Ok (let base := uniform_value (fst (normal_range sensor))
                                   (snd (normal_range sensor))
                                   (peek (py_random w)) in
         let offset := uniform_value 1 3 (peek (advance (py_random w))) in
         let v1 := if day_shift sensor ts then (base + offset)%Q else base in
         let v2 := if 5 <=? weekday ts then (v1 * 0.95)%Q else v1 in
         if is_temperature sensor
         then (v2 + 2 * np_sin (2 * np_pi * inject_Z (tm_yday ts) / 365))%Q
         else v2),
     set_py w (advance_by (value_draws sensor ts) (py_random w))).
Proof.
  unfold _generate_realistic_value, value_draws, day_shift.
  destruct (normal_range sensor) as [lo hi]. cbn [fst snd].
  unfold bind at 1. rewrite random_uniform_run.
  destruct (is_temperature sensor); cbn [andb];
    [destruct ((6 <=? hour ts) && (hour ts <=? 18))|];
    unfold bind; try rewrite random_uniform_run; reflexivity.
Qed.

(** C5. For every sensor configuration and timestamp,
    [_generate_realistic_value] returns a value built in this order: a
    uniform draw [base] from [[normal_min, normal_max]]; plus, for a
    temperature sensor at an hour in [[6, 18]], a uniform [offset] from
    [[1, 3]]; the sum times 0.95 when the weekday index is at least 5; plus,
    for a temperature sensor, [2 * sin(2 * pi * day_of_year / 365)]. *)
Theorem generate_realistic_value_order
        (np_sin : Q -> Q) (np_pi : Q)
        (sensor : SensorConfig) (ts : Z) (w : World) :
  uniform_tape (py_random w) ->
  (fst (normal_range sensor) <= snd (normal_range sensor))%Q ->
  exists base offset result w',
    _generate_realistic_value np_sin np_pi sensor ts w = (Ok result, w')
    /\ base = uniform_value (fst (normal_range sensor)) (snd (normal_range sensor))
                            (peek (py_random w))
    /\ (fst (normal_range sensor) <= base /\ base <= snd (normal_range sensor))%Q
    /\ offset = uniform_value 1 3 (peek (advance (py_random w)))
    /\ (1 <= offset /\ offset <= 3)%Q
    /\ result =
       (let v1 := if is_temperature sensor && ((6 <=? hour ts) && (hour ts <=? 18))
                  then (base + offset)%Q else base in
        let v2 := if 5 <=? weekday ts then (v1 * 0.95)%Q else v1 in
        if is_temperature sensor
        then (v2 + 2 * np_sin (2 * np_pi * inject_Z (tm_yday ts) / 365))%Q
        else v2).
Proof.
  intros Htape Hrange.
  destruct (uniform_tape_peek _ Htape) as [Hu0 Hu1].
  destruct (uniform_tape_peek _ (uniform_tape_advance _ Htape)) as [Hv0 Hv1].
  eexists _, _, _, _.
  split; [apply generate_realistic_value_run|].
  split; [reflexivity|].
  split; [apply uniform_value_bounds; assumption|].
  split; [reflexivity|].
  split; [apply uniform_value_bounds; [lra | assumption | assumption]|].
  reflexivity.
Qed.

(** The theorem at TEMP_001 on a Saturday at noon, where every adjustment
    applies. *)
Lemma generate_realistic_value_order_witness :
  exists base offset result w',
    _generate_realistic_value sample_sin sample_pi temp_001 ts_saturday_noon
                              sample_world = (Ok result, w')
    /\ base = uniform_value 20 25 (11 # 100)
    /\ (20 <= base /\ base <= 25)%Q
    /\ offset = uniform_value 1 3 (48 # 100)
    /\ (1 <= offset /\ offset <= 3)%Q
    /\ result =
       ((base + offset) * 0.95
        + 2 * sample_sin (2 * sample_pi * inject_Z 6 / 365))%Q.
Proof.
  apply (generate_realistic_value_order sample_sin sample_pi temp_001
           ts_saturday_noon sample_world).
  - exact sample_draws_uniform.
  - vm_compute. discriminate.
Defined.

(* ------------------------------------------------------------------ *)
(** ** Rounding *)

Lemma round_half_even_cases x :
  round_half_even x = Qfloor x \/ round_half_even x = Qfloor x + 1.
Proof.
  unfold round_half_even.
  destruct (Qlt_bool _ _); [left; reflexivity|].
  destruct (Qlt_bool _ _); [right; reflexivity|].
  destruct (Z.even _); [left | right]; reflexivity.
Qed.

Lemma round_half_even_lower k x : (inject_Z k <= x)%Q -> k <= round_half_even x.
Proof.
  intros H. apply Qfloor_resp_le in H. rewrite Qfloor_Z in H.
  destruct (round_half_even_cases x) as [E | E]; rewrite E; lia.
Qed.

Lemma round_half_even_upper k x : (x <= inject_Z k)%Q -> round_half_even x <= k.
Proof.
  intros H.
  pose proof (Qfloor_resp_le _ _ H) as Hf. rewrite Qfloor_Z in Hf.
  destruct (Z.eq_dec (Qfloor x) k) as [Heq | Hne].
  - unfold round_half_even.
    destruct (Qlt_bool (x - inject_Z (Qfloor x)) (1 # 2)) eqn:E; [lia|].
    exfalso.
    assert (Hlt : (x - inject_Z (Qfloor x) < 1 # 2)%Q) by (rewrite Heq; lra).
    apply Qlt_bool_iff in Hlt. congruence.
  - destruct (round_half_even_cases x) as [E | E]; rewrite E; lia.
Qed.

(** Rounding to [ndigits] decimals keeps a value between two bounds that
    are themselves multiples of [10 ^ -ndigits]. *)
Lemma py_round_between lo hi x ndigits :
  0 <= ndigits ->
  (inject_Z lo / inject_Z (10 ^ ndigits) <= x)%Q ->
  (x <= inject_Z hi / inject_Z (10 ^ ndigits))%Q ->
  (inject_Z lo / inject_Z (10 ^ ndigits) <= py_round x ndigits
   /\ py_round x ndigits <= inject_Z hi / inject_Z (10 ^ ndigits))%Q.
Proof.
  intros Hn Hlo Hhi. unfold py_round.
  assert (Hs : (0 < inject_Z (10 ^ ndigits))%Q).
  { change 0%Q with (inject_Z 0). rewrite <- Zlt_Qlt.
    apply Z.pow_pos_nonneg; lia. }
  set (s := inject_Z (10 ^ ndigits)) in *.
  assert (Hcancel : forall k, (inject_Z k / s * s == inject_Z k)%Q).
  { intros k. field. lra. }
  assert (H1 : (inject_Z lo <= x * s)%Q).
  { rewrite <- (Hcancel lo). apply Qmult_le_compat_r; lra. }
  assert (H2 : (x * s <= inject_Z hi)%Q).
  { rewrite <- (Hcancel hi). apply Qmult_le_compat_r; lra. }
  apply round_half_even_lower in H1. apply round_half_even_upper in H2.
  rewrite Zle_Qle in H1, H2.
  split.
  - apply Qle_shift_div_l; [assumption|]. rewrite Hcancel. assumption.
  - apply Qle_shift_div_r; [assumption|]. rewrite Hcancel. assumption.
Qed.

(** A score between 0.1 and 1.0 stays there when rounded to 3 decimals. *)
Lemma py_round_score x :
  (0.1 <= x)%Q -> (x <= 1.0)%Q ->
  (0.1 <= py_round x 3 /\ py_round x 3 <= 1.0)%Q.
Proof.
  intros Hlo Hhi.
  pose proof (py_round_between 100 1000 x 3 ltac:(lia)) as H.
  change (inject_Z (10 ^ 3)) with (inject_Z 1000) in H.
  assert (E1 : (inject_Z 100 / inject_Z 1000 == 0.1)%Q) by reflexivity.
  assert (E2 : (inject_Z 1000 / inject_Z 1000 == 1.0)%Q) by reflexivity.
  rewrite E1, E2 in H. apply H; assumption.
Qed.

Example py_round_examples :
  py_round (12345 # 10000) 3 == 1.234
  /\ py_round (12355 # 10000) 3 == 1.236
  /\ py_round (-(5 # 10000)) 3 == 0
  /\ py_round (99996 # 100000) 3 == 1.0.
Proof. repeat split; reflexivity. Qed.

(* ------------------------------------------------------------------ *)
(** ** Runs of the [random] primitives on a uniform tape *)

Lemma random_choice_run {A} (l : list A) w :
  l <> [] ->
  uniform_tape (py_random w) ->
  exists x,
    nth_error l (Z.to_nat (Qfloor (peek (py_random w)
                                   * inject_Z (Z.of_nat (List.length l))))) = Some x
    /\ random_choice l w = (Ok x, set_py w (advance (py_random w))).
Proof.
  intros Hne Htape.
  destruct (uniform_tape_peek _ Htape) as [Hu0 Hu1].
  assert (Hlen : 0 < Z.of_nat (List.length l)).
  { destruct l; [contradiction | simpl; lia]. }
  pose proof (randbelow_bounds _ _ Hlen Hu0 Hu1) as Hi.
  set (i := Qfloor (peek (py_random w) * inject_Z (Z.of_nat (List.length l)))) in *.
  destruct (nth_error l (Z.to_nat i)) as [x|] eqn:E.
  - exists x. split; [reflexivity|].
    destruct l as [|a l']; [contradiction|].
    unfold random_choice, bind. rewrite randbelow_run. fold i. rewrite E.
    reflexivity.
  - exfalso. apply nth_error_None in E. lia.
Qed.

Lemma random_randint_run a b w :
  a <= b ->
  uniform_tape (py_random w) ->
  exists n,
    a <= n <= b
    /\ random_randint a b w = (Ok n, set_py w (advance (py_random w))).
Proof.
  intros Hab Htape.
  destruct (uniform_tape_peek _ Htape) as [Hu0 Hu1].
  pose proof (randbelow_bounds (peek (py_random w)) (b - a + 1)
                               ltac:(lia) Hu0 Hu1) as Hi.
  eexists. split; [|unfold random_randint, bind].
  2:{ destruct (b <? a) eqn:E; [apply Z.ltb_lt in E; lia|].
      rewrite randbelow_run. reflexivity. }
  lia.
Qed.

Lemma evolves_set_py w t :
  draws t = draws (py_random w) -> evolves w (set_py w t).
Proof. intros H. constructor; simpl; auto. Qed.

Lemma evolves_set_np_normal w t :
  draws t = draws (np_normal w) -> evolves w (set_np_normal w t).
Proof. intros H. constructor; simpl; auto. Qed.

Lemma evolves_set_np_uniform w t :
  draws t = draws (np_uniform w) -> evolves w (set_np_uniform w t).
Proof. intros H. constructor; simpl; auto. Qed.

Lemma draws_advance_by n t : draws (advance_by n t) = draws t.
Proof.
  revert t. induction n as [|n IH]; intros t; simpl; [reflexivity|].
  rewrite IH. reflexivity.
Qed.

(* ------------------------------------------------------------------ *)
(** ** One sensor record *)

Lemma inject_anomaly_normal sensor base value w :
  Qlt_bool (peek (py_random w)) (error_rate sensor) = false ->
  inject_anomaly sensor base value w
  = (Ok (false, value), set_py w (advance (py_random w))).
Proof.
  intros H. unfold inject_anomaly, bind, random_random. rewrite H. reflexivity.
Qed.

Lemma inject_anomaly_error sensor base value w :
  uniform_tape (py_random w) ->
  Qlt_bool (peek (py_random w)) (error_rate sensor) = true ->
  exists f,
    nth_error anomaly_factors
              (Z.to_nat (Qfloor (peek (advance (py_random w)) * inject_Z 4)))
    = Some f
    /\ inject_anomaly sensor base value w
       = (Ok (true, (base * f)%Q),
          set_py w (advance (advance (py_random w)))).
Proof.
  intros Htape H.
  set (w1 := set_py w (advance (py_random w))).
  destruct (random_choice_run anomaly_factors w1 ltac:(discriminate)
              (uniform_tape_advance _ Htape)) as (f & Hf & Hrun).
  exists f. split; [exact Hf|].
  unfold inject_anomaly, bind, random_random. rewrite H. fold w1.
  rewrite Hrun. reflexivity.
Qed.

Lemma sensor_specific_fields_ok sensor value rounded w :
  exists extra w',
    sensor_specific_fields sensor value rounded w = (Ok extra, w')
    /\ evolves w w'.
Proof.
  unfold sensor_specific_fields.
  destruct (String.eqb (s_type sensor) "temperature");
    [eexists _, _; split; [reflexivity | apply evolves_refl]|].
  destruct (String.eqb (s_type sensor) "humidity");
    [eexists _, _; split; [reflexivity | apply evolves_refl]|].
  destruct (String.eqb (s_type sensor) "pressure");
    [eexists _, _; split; [reflexivity | apply evolves_refl]|].
  destruct (String.eqb (s_type sensor) "vibration");
    eexists _, _; (split; [reflexivity|]); [|apply evolves_refl].
  constructor; reflexivity.
Qed.

Lemma generate_realistic_value_total np_sin np_pi sensor ts w :
  exists base,
    _generate_realistic_value np_sin np_pi sensor ts w
    = (Ok base, set_py w (advance_by (value_draws sensor ts) (py_random w))).
Proof. eexists. apply generate_realistic_value_run. Qed.

Lemma quality_score_range sensor value w :
  uniform_tape (py_random w) ->
  exists score,
    _calculate_quality_score sensor value w
      = (Ok score, set_py w (advance (py_random w)))
    /\ (0.1 <= score /\ score <= 1.0)%Q.
Proof.
  intros Htape.
  destruct (uniform_tape_peek _ Htape) as [Hu0 Hu1].
  eexists. split; [apply calculate_quality_score_run|].
  pose proof (uniform_value_bounds 0.95 1.0 _ ltac:(lra) Hu0 Hu1) as H1.
  pose proof (uniform_value_bounds 0.7 0.9 _ ltac:(lra) Hu0 Hu1) as H2.
  pose proof (uniform_value_bounds 0.1 0.6 _ ltac:(lra) Hu0 Hu1) as H3.
  destruct (_ && _); [|destruct (_ && _)]; split; lra.
Qed.

Lemma sensor_record_run np_sin np_pi sensor ts w :
  uniform_tape (py_random w) ->
  exists base record w',
    _generate_realistic_value np_sin np_pi sensor ts w
      = (Ok base, set_py w (advance_by (value_draws sensor ts) (py_random w)))
    /\ sensor_record np_sin np_pi sensor ts w = (Ok record, w')
    /\ evolves w w'
    /\ anomaly_rule sensor base
                    (0 + 0.1 * peek (np_normal w))%Q
                    (peek (advance_by (value_draws sensor ts) (py_random w)))
                    (peek (advance (advance_by (value_draws sensor ts)
                                               (py_random w))))
                    record
    /\ (0.1 <= r_quality_score record /\ r_quality_score record <= 1.0)%Q.
Proof.
  intros Htape.
  destruct (generate_realistic_value_total np_sin np_pi sensor ts w)
    as (base & Hval).
  set (w1 := set_py w _) in Hval.
  assert (Htape1 : uniform_tape (py_random w1))
    by (apply uniform_tape_advance_by, Htape).
  assert (Hev1 : evolves w w1) by (apply evolves_set_py, draws_advance_by).
  exists base.
  unfold sensor_record.
  rewrite (bind_ok _ _ _ _ _ Hval).
  unfold bind at 1. unfold np_random_normal at 1.
  change (np_normal w1) with (np_normal w).
  set (noise := (0 + 0.1 * peek (np_normal w))%Q).
  set (w2 := set_np_normal w1 _).
  assert (Hev2 : evolves w w2).
  { eapply evolves_trans; [exact Hev1|]. apply evolves_set_np_normal. reflexivity. }
  assert (Htape2 : uniform_tape (py_random w2)) by exact Htape1.
  change (advance_by (value_draws sensor ts) (py_random w)) with (py_random w2).
  destruct (Qlt_bool (peek (py_random w2)) (error_rate sensor)) eqn:Eu.
  - destruct (inject_anomaly_error sensor base (base + noise)%Q w2 Htape2 Eu)
      as (f & Hf & Hrun).
    rewrite (bind_ok _ _ _ _ _ Hrun).
    set (w3 := set_py w2 _).
    destruct (quality_score_range sensor (base * f)%Q w3) as (score & Hs & Hb).
    { apply uniform_tape_advance, uniform_tape_advance, Htape2. }
    rewrite (bind_ok _ _ _ _ _ Hs).
    set (w4 := set_py w3 _).
    destruct (sensor_specific_fields_ok sensor (base * f)%Q
                (py_round (base * f) 3) w4) as (extra & w5 & Hextra & Hev5).
    rewrite (bind_ok _ _ _ _ _ Hextra).
    eexists _, _. split; [exact Hval|]. split; [reflexivity|].
    split; [|split].
    + eapply evolves_trans; [exact Hev2|].
      eapply evolves_trans; [|exact Hev5].
      constructor; reflexivity.
    + unfold anomaly_rule; cbn [r_value r_is_anomaly r_status].
      apply Qlt_bool_iff in Eu.
      split; [|split].
      * intros _. exists f. repeat split; try assumption.
        eapply nth_error_In; exact Hf.
      * intros Hn. contradiction.
      * split; reflexivity.
    + cbn [r_quality_score]. apply py_round_score; apply Hb.
  - rewrite (bind_ok _ _ _ _ _ (inject_anomaly_normal sensor base _ w2 Eu)).
    set (w3 := set_py w2 _).
    destruct (quality_score_range sensor (base + noise)%Q w3) as (score & Hs & Hb).
    { apply uniform_tape_advance, Htape2. }
    rewrite (bind_ok _ _ _ _ _ Hs).
    set (w4 := set_py w3 _).
    destruct (sensor_specific_fields_ok sensor (base + noise)%Q
                (py_round (base + noise) 3) w4) as (extra & w5 & Hextra & Hev5).
    rewrite (bind_ok _ _ _ _ _ Hextra).
    eexists _, _. split; [exact Hval|]. split; [reflexivity|].
    split; [|split].
    + eapply evolves_trans; [exact Hev2|].
      eapply evolves_trans; [|exact Hev5].
      constructor; reflexivity.
    + unfold anomaly_rule; cbn [r_value r_is_anomaly r_status].
      assert (Hn : ~ (peek (py_random w2) < error_rate sensor)%Q).
      { intros H. apply Qlt_bool_iff in H. congruence. }
      split; [|split].
      * intros H. contradiction.
      * intros _. repeat split.
      * split; discriminate.
    + cbn [r_quality_score]. apply py_round_score; apply Hb.
Qed.

(* ------------------------------------------------------------------ *)
(** ** Loops *)

(** A loop whose body always returns [k] items satisfying [P], and keeps
    the invariant [I] of the world, returns [length xs * k] such items. *)
Lemma for_each_ok {A B} (I : World -> Prop) (P : B -> Prop) (k : nat)
      (xs : list A) (body : A -> M (list B)) :
  (forall x w, In x xs -> I w ->
     ok_with (body x) w
             (fun l w' => List.length l = k /\ Forall P l /\ I w')) ->
  forall w, I w ->
    ok_with (for_each xs body) w
            (fun l w' => List.length l = (List.length xs * k)%nat
                         /\ Forall P l /\ I w').
Proof.
  induction xs as [|x xs IH]; intros Hbody w HI.
  - apply ok_ret. repeat split; [constructor | exact HI].
  - cbn [for_each].
    destruct (Hbody x w (or_introl eq_refl) HI)
      as (l1 & w1 & Hrun1 & Hlen1 & HP1 & HI1).
    destruct (IH (fun y w0 Hy => Hbody y w0 (or_intror Hy)) w1 HI1)
      as (l2 & w2 & Hrun2 & Hlen2 & HP2 & HI2).
    exists (l1 ++ l2), w2. split.
    + rewrite (bind_ok _ _ _ _ _ Hrun1), (bind_ok _ _ _ _ _ Hrun2). reflexivity.
    + split; [|split; [apply Forall_app; split; assumption | exact HI2]].
      rewrite length_app, Hlen1, Hlen2. cbn [List.length]. lia.
Qed.

(** Whatever a loop returns is made of what its body returned. *)
Lemma for_each_Forall {A B} (I : World -> Prop) (P : B -> Prop)
      (xs : list A) (body : A -> M (list B)) :
  (forall x w l w', In x xs -> I w -> body x w = (Ok l, w') ->
     Forall P l /\ I w') ->
  forall w l w', I w -> for_each xs body w = (Ok l, w') -> Forall P l /\ I w'.
Proof.
  induction xs as [|x xs IH]; intros Hbody w l w' HI Hrun.
  - cbn in Hrun. injection Hrun as <- <-. split; [constructor | exact HI].
  - cbn [for_each] in Hrun. unfold bind at 1 in Hrun.
    destruct (body x w) as [[l1|e1] w1] eqn:E1; [|discriminate].
    destruct (Hbody x w l1 w1 (or_introl eq_refl) HI E1) as [HP1 HI1].
    unfold bind at 1 in Hrun.
    destruct (for_each xs body w1) as [[l2|e2] w2] eqn:E2; [|discriminate].
    destruct (IH (fun y w0 l0 w0' Hy => Hbody y w0 l0 w0' (or_intror Hy))
                 w1 l2 w2 HI1 E2) as [HP2 HI2].
    cbn in Hrun. injection Hrun as <- <-.
    split; [apply Forall_app; split; assumption | exact HI2].
Qed.

Lemma py_range_length n : List.length (py_range n) = Z.to_nat n.
Proof. unfold py_range. rewrite length_map, length_seq. reflexivity. Qed.

Lemma py_range3_minutes step :
  0 < step ->
  exists minutes,
    py_range3 0 1440 step = Ok minutes
    /\ List.length minutes = Z.to_nat (minutes_per_day step)
    /\ Forall (fun m => 0 <= m < 1440 /\ m mod step = 0) minutes.
Proof.
  intros Hstep. unfold py_range3, minutes_per_day.
  destruct (step =? 0) eqn:E0; [apply Z.eqb_eq in E0; lia|].
  destruct (0 <? step) eqn:E1; [|apply Z.ltb_ge in E1; lia].
  eexists. split; [reflexivity|]. split.
  - rewrite length_map, length_seq, Z.sub_0_r. reflexivity.
  - apply Forall_forall. intros m Hm. apply in_map_iff in Hm.
    destruct Hm as (i & <- & Hi). apply in_seq in Hi.
    rewrite Z.sub_0_r in Hi.
    assert (Hq : 0 <= (1440 + step - 1) / step) by (apply Z.div_pos; lia).
    assert (Hi' : Z.of_nat i < (1440 + step - 1) / step) by lia.
    assert (Hmul : step * ((1440 + step - 1) / step) <= 1440 + step - 1)
      by (apply Z.mul_div_le; lia).
    split; [nia|].
    rewrite Z.add_0_l. apply Z.mod_mul. lia.
Qed.

Lemma py_range3_zero_step start stop :
  py_range3 start stop 0 = Raise (ValueError "range() arg 3 must not be zero").
Proof. reflexivity. Qed.

(* ------------------------------------------------------------------ *)
(** ** The rows of [generate_sensor_data] *)

Lemma sensor_row_ok np_sin np_pi self sensor ts w0 w :
  In sensor (sensors self) ->
  world_ok w0 -> evolves w0 w ->
  ok_with (record <- sensor_record np_sin np_pi sensor ts ;; ret [record]) w
          (fun l w' => List.length l = 1%nat
                       /\ Forall (produced np_sin np_pi self) l
                       /\ evolves w0 w').
Proof.
  intros Hin Hok Hev.
  assert (Htape : uniform_tape (py_random w)) by (apply (evolves_ok _ _ Hev Hok)).
  destruct (sensor_record_run np_sin np_pi sensor ts w Htape)
    as (base & record & w' & _ & Hrun & Hev' & _ & _).
  exists [record], w'. split.
  - rewrite (bind_ok _ _ _ _ _ Hrun). reflexivity.
  - split; [reflexivity|]. split; [|eapply evolves_trans; eassumption].
    constructor; [|constructor].
    exists sensor, ts, w.
    split; [exact Hin|]. split; [exact Htape|]. rewrite Hrun. reflexivity.
Qed.

Lemma sensor_row_partial np_sin np_pi self sensor ts w0 w l w' :
  In sensor (sensors self) ->
  world_ok w0 -> evolves w0 w ->
  (record <- sensor_record np_sin np_pi sensor ts ;; ret [record]) w = (Ok l, w') ->
  Forall (produced np_sin np_pi self) l /\ evolves w0 w'.
Proof.
  intros Hin Hok Hev Hrun.
  destruct (sensor_row_ok np_sin np_pi self sensor ts w0 w Hin Hok Hev)
    as (l1 & w1 & Hrun1 & _ & HP & Hev1).
  rewrite Hrun1 in Hrun. injection Hrun as <- <-. split; assumption.
Qed.

Lemma generate_sensor_data_ok np_sin np_pi self records_per_day w :
  1 <= records_per_day <= 1440 ->
  world_ok w ->
  ok_with (generate_sensor_data np_sin np_pi self records_per_day) w
          (fun df w' =>
             List.length df = sensor_rows self (1440 / records_per_day)
             /\ Forall (produced np_sin np_pi self) df
             /\ evolves w w').
Proof.
  intros Hrpd Hok. unfold generate_sensor_data, sensor_rows.
  rewrite <- (py_range_length (num_days self)).
  apply (for_each_ok (evolves w)); [|apply evolves_refl].
  intros day w1 _ Hev1.
  assert (Hstep : 0 < 1440 / records_per_day).
  { apply Z.div_str_pos. lia. }
  unfold floordiv.
  destruct (records_per_day =? 0) eqn:E0; [apply Z.eqb_eq in E0; lia|].
  destruct (py_range3_minutes _ Hstep) as (minutes & Hminutes & Hlen & _).
  unfold bind at 1, lift at 1. unfold bind at 1, lift at 1.
  rewrite Hminutes, <- Hlen.
  apply (for_each_ok (evolves w)); [|exact Hev1].
  intros minute w2 _ Hev2.
  eapply ok_weaken.
  - apply (for_each_ok (evolves w) (produced np_sin np_pi self) 1); [|exact Hev2].
    intros sensor w3 Hin Hev3.
    apply sensor_row_ok; assumption.
  - intros l w' (Hl & HP & HI). rewrite Nat.mul_1_r in Hl. auto.
Qed.

Lemma generate_sensor_data_rows np_sin np_pi self records_per_day w df w' :
  world_ok w ->
  generate_sensor_data np_sin np_pi self records_per_day w = (Ok df, w') ->
  Forall (produced np_sin np_pi self) df /\ evolves w w'.
Proof.
  intros Hok. unfold generate_sensor_data.
  apply (for_each_Forall (evolves w)); [|apply evolves_refl].
  intros day w1 l1 w1' _ Hev1.
  unfold bind at 1, lift at 1.
  destruct (floordiv 1440 records_per_day) as [step|e]; [|discriminate].
  unfold bind at 1, lift at 1.
  destruct (py_range3 0 1440 step) as [minutes|e]; [|discriminate].
  apply (for_each_Forall (evolves w)); [|exact Hev1].
  intros minute w2 l2 w2' _ Hev2.
  apply (for_each_Forall (evolves w)); [|exact Hev2].
  intros sensor w3 l3 w3' Hin Hev3.
  apply sensor_row_partial; assumption.
Qed.

(* ------------------------------------------------------------------ *)
(** ** Anomaly injection *)

Lemma produced_follows_anomaly_rule np_sin np_pi self record :
  produced np_sin np_pi self record ->
  follows_anomaly_rule np_sin np_pi self record.
Proof.
  intros (sensor & ts & w0 & Hin & Htape & Hrec).
  destruct (sensor_record_run np_sin np_pi sensor ts w0 Htape)
    as (base & record' & w' & Hval & Hrun & _ & Hrule & _).
  rewrite Hrun in Hrec. cbn in Hrec. injection Hrec as <-.
  exists sensor, ts, w0, base.
  split; [exact Hin|]. split; [rewrite Hval; reflexivity|].
  split; [rewrite Hrun; reflexivity | exact Hrule].
Qed.

(** C2. In a world whose [random] tape is uniform, the loop body of
    [generate_sensor_data] returns a record for every sensor and
    timestamp, and every reading that [generate_sensor_data] returns was
    built this way: after the base value and the noise, one uniform
    number [u] is drawn; when [u < error_rate] the value is
    [base_value * f] with [f] picked from [-2, -1.5, 1.5, 2] at the index
    given by the next draw, [is_anomaly] is true and [status] is "error";
    otherwise the value is [base_value + noise], [is_anomaly] is false and
    [status] is "normal" (the record holds the value rounded to 3
    decimals).  So [status] is "error" exactly when [is_anomaly] is
    true. *)
Theorem anomaly_injection
        (np_sin : Q -> Q) (np_pi : Q)
        (self : Generator) (records_per_day : Z) (w : World) :
  world_ok w ->
  (forall sensor ts,
      exists base record w',
        fst (_generate_realistic_value np_sin np_pi sensor ts w) = Ok base
        /\ sensor_record np_sin np_pi sensor ts w = (Ok record, w')
        /\ anomaly_rule sensor base
             (0 + 0.1 * peek (np_normal w))%Q
             (peek (advance_by (value_draws sensor ts) (py_random w)))
             (peek (advance (advance_by (value_draws sensor ts) (py_random w))))
             record)
  /\ Forall (fun record =>
               follows_anomaly_rule np_sin np_pi self record
               /\ (r_status record = "error"%string
                   <-> r_is_anomaly record = true))
            (rows_of (generate_sensor_data np_sin np_pi self records_per_day w)).
Proof.
  intros Hok. split.
  - intros sensor ts.
    destruct (sensor_record_run np_sin np_pi sensor ts w (proj1 Hok))
      as (base & record & w' & Hval & Hrun & _ & Hrule & _).
    exists base, record, w'.
    split; [rewrite Hval; reflexivity|]. split; assumption.
  - unfold rows_of.
    destruct (generate_sensor_data np_sin np_pi self records_per_day w)
      as [[df|e] w'] eqn:Erun; cbn [fst]; [|constructor].
    destruct (generate_sensor_data_rows _ _ _ _ _ _ _ Hok Erun) as [Hrows _].
    eapply Forall_impl; [|exact Hrows].
    intros record Hprod.
    pose proof (produced_follows_anomaly_rule _ _ _ _ Hprod) as Hrule.
    split; [exact Hrule|].
    destruct Hrule as (sensor & ts & w0 & base & _ & _ & _ & _ & _ & Hiff).
    exact Hiff.
Qed.

Lemma anomaly_injection_witness :
  (forall sensor ts,
      exists base record w',
        fst (_generate_realistic_value sample_sin sample_pi sensor ts sample_world)
        = Ok base
        /\ sensor_record sample_sin sample_pi sensor ts sample_world
           = (Ok record, w')
        /\ anomaly_rule sensor base
             (0 + 0.1 * peek (np_normal sample_world))%Q
             (peek (advance_by (value_draws sensor ts) (py_random sample_world)))
             (peek (advance (advance_by (value_draws sensor ts)
                                        (py_random sample_world))))
             record)
  /\ Forall (fun record =>
               follows_anomaly_rule sample_sin sample_pi sample_generator record
               /\ (r_status record = "error"%string
                   <-> r_is_anomaly record = true))
            (rows_of (generate_sensor_data sample_sin sample_pi
                                           sample_generator 24 sample_world)).
Proof.
  apply (anomaly_injection sample_sin sample_pi sample_generator 24 sample_world).
  exact sample_world_ok.
Defined.

(** The first reading of a sample run: a temperature record at midnight
    of the start date. *)
Example first_sample_reading :
  match rows_of (generate_sensor_data sample_sin sample_pi sample_generator 24
                                      sample_world) with
  | record :: _ =>
      r_sensor_id record = "TEMP_001"%string
      /\ r_timestamp record = "2024-01-01 00:00:00"%string
      /\ r_status record = "normal"%string
      /\ r_is_anomaly record = false
      /\ map fst (r_extra record) = ["temperature"; "unit"]%string
  | [] => False
  end.
Proof. vm_compute. repeat split. Qed.

(** On the sample tape the third draw of the first reading is below the
    error rate 0.9 of this sensor, so the reading is an anomaly. *)
Example anomalous_reading :
  let sensor := mkSensor "T" "E" "pressure" "L" (100, 120)%Q (80, 150)%Q 0.9%Q in
  let record := fst (sensor_record sample_sin sample_pi sensor ts_2024_01_01
                                   sample_world) in
  match record with
  | Ok r => r_is_anomaly r = true /\ r_status r = "error"%string
            /\ r_value r == 204.4
  | Raise _ => False
  end.
Proof. vm_compute. repeat split. Qed.

(* ------------------------------------------------------------------ *)
(** ** Row counts of [generate_sensor_data] *)

Lemma sensor_rows_Z self step :
  0 < step ->
  Z.of_nat (sensor_rows self step)
  = Z.max 0 (num_days self) * minutes_per_day step * len (sensors self).
Proof.
  intros Hstep. unfold sensor_rows, len.
  assert (Hm : 0 <= minutes_per_day step).
  { unfold minutes_per_day. apply Z.div_pos; lia. }
  rewrite !Nat2Z.inj_mul, (Z2Nat.id (minutes_per_day step)) by assumption.
  destruct (Z.max_spec 0 (num_days self)) as [[Hlt ->] | [Hle ->]].
  - rewrite Z2Nat.id by lia. ring.
  - replace (Z.to_nat (num_days self)) with 0%nat by lia. reflexivity.
Qed.

(** C3. On a generator with [num_days = 1] (and a world whose [random]
    tape is uniform), [generate_sensor_data(records_per_day=1440)] returns
    a frame of exactly [1440 * len(sensors)] rows, which is 7200 rows for
    the built-in sensor configuration. *)
Theorem generate_sensor_data_row_count
        (np_sin : Q -> Q) (np_pi : Q) (self : Generator) (w : World) :
  num_days self = 1 ->
  world_ok w ->
  exists df w',
    generate_sensor_data np_sin np_pi self 1440 w = (Ok df, w')
    /\ len df = 1440 * len (sensors self)
    /\ (sensors self = _create_sensor_config -> len df = 7200).
Proof.
  intros Hdays Hok.
  destruct (generate_sensor_data_ok np_sin np_pi self 1440 w ltac:(lia) Hok)
    as (df & w' & Hrun & Hlen & _ & _).
  exists df, w'. split; [exact Hrun|].
  assert (Hcount : len df = 1440 * len (sensors self)).
  { unfold len at 1. rewrite Hlen.
    change (1440 / 1440) with 1.
    rewrite sensor_rows_Z by lia. rewrite Hdays.
    change (minutes_per_day 1) with 1440. lia. }
  split; [exact Hcount|].
  intros Hs. rewrite Hcount, Hs. reflexivity.
Qed.

Lemma generate_sensor_data_row_count_witness :
  exists df w',
    generate_sensor_data sample_sin sample_pi sample_generator 1440 sample_world
    = (Ok df, w')
    /\ len df = 1440 * len (sensors sample_generator)
    /\ (sensors sample_generator = _create_sensor_config -> len df = 7200).
Proof.
  apply (generate_sensor_data_row_count sample_sin sample_pi sample_generator
           sample_world).
  - reflexivity.
  - exact sample_world_ok.
Defined.

(* ------------------------------------------------------------------ *)
(** ** Quality scores of the readings *)

(** C6. Every record that [generate_sensor_data] returns (in a world whose
    [random] tape is uniform) has a [quality_score], rounded to 3
    decimals, between 0.1 and 1.0, both included. *)
Theorem reading_quality_score_range
        (np_sin : Q -> Q) (np_pi : Q)
        (self : Generator) (records_per_day : Z) (w : World) :
  world_ok w ->
  Forall (fun record =>
            (0.1 <= r_quality_score record /\ r_quality_score record <= 1.0)%Q)
         (rows_of (generate_sensor_data np_sin np_pi self records_per_day w)).
Proof.
  intros Hok. unfold rows_of.
  destruct (generate_sensor_data np_sin np_pi self records_per_day w)
    as [[df|e] w'] eqn:Erun; cbn [fst]; [|constructor].
  destruct (generate_sensor_data_rows _ _ _ _ _ _ _ Hok Erun) as [Hrows _].
  eapply Forall_impl; [|exact Hrows].
  intros record (sensor & ts & w0 & _ & Htape & Hrec).
  destruct (sensor_record_run np_sin np_pi sensor ts w0 Htape)
    as (base & record' & w1 & _ & Hrun & _ & _ & Hscore).
  rewrite Hrun in Hrec. cbn in Hrec. injection Hrec as <-. exact Hscore.
Qed.

Lemma reading_quality_score_range_witness :
  Forall (fun record =>
            (0.1 <= r_quality_score record /\ r_quality_score record <= 1.0)%Q)
         (rows_of (generate_sensor_data sample_sin sample_pi sample_generator
                                        24 sample_world))
  /\ List.length (rows_of (generate_sensor_data sample_sin sample_pi
                             sample_generator 24 sample_world)) = 120%nat.
Proof.
  split.
  - apply (reading_quality_score_range sample_sin sample_pi sample_generator
             24 sample_world).
    exact sample_world_ok.
  - vm_compute. reflexivity.
Defined.

(* ------------------------------------------------------------------ *)
(** ** Values of [records_per_day] outside the divisors of 1440 *)

(** C9. For every [records_per_day] above 1440, on a generator of at
    least one day, [generate_sensor_data] returns no frame: the quotient
    [1440 // records_per_day] is 0 and the [range] of the first day raises
    [ValueError] before any reading is drawn. *)
Theorem records_per_day_above_1440_raises
        (np_sin : Q -> Q) (np_pi : Q)
        (self : Generator) (records_per_day : Z) (w : World) :
  1 <= num_days self ->
  1440 < records_per_day ->
  floordiv 1440 records_per_day = Ok 0
  /\ generate_sensor_data np_sin np_pi self records_per_day w
     = (Raise (ValueError "range() arg 3 must not be zero"), w).
Proof.
  intros Hdays Hrpd.
  assert (Hdiv : floordiv 1440 records_per_day = Ok 0).
  { unfold floordiv.
    destruct (records_per_day =? 0) eqn:E0; [apply Z.eqb_eq in E0; lia|].
    rewrite Z.div_small by lia. reflexivity. }
  split; [exact Hdiv|].
  unfold generate_sensor_data, py_range.
  destruct (Z.to_nat (num_days self)) as [|n] eqn:En; [lia|].
  cbn [seq map for_each].
  unfold bind at 1. unfold bind at 1. unfold lift at 1. rewrite Hdiv.
  unfold bind at 1. unfold lift at 1. rewrite py_range3_zero_step.
  reflexivity.
Qed.

Lemma records_per_day_above_1440_raises_witness :
  floordiv 1440 2000 = Ok 0
  /\ generate_sensor_data sample_sin sample_pi sample_generator 2000 sample_world
     = (Raise (ValueError "range() arg 3 must not be zero"), sample_world).
Proof.
  apply (records_per_day_above_1440_raises sample_sin sample_pi sample_generator
           2000 sample_world).
  - vm_compute. discriminate.
  - reflexivity.
Defined.

(** Without a day to generate the loop body never runs, whatever
    [records_per_day] is. *)
Remark generate_sensor_data_no_days np_sin np_pi self records_per_day w :
  num_days self <= 0 ->
  generate_sensor_data np_sin np_pi self records_per_day w = (Ok [], w).
Proof.
  intros Hdays. unfold generate_sensor_data, py_range.
  replace (Z.to_nat (num_days self)) with 0%nat by lia. reflexivity.
Qed.

(* ------------------------------------------------------------------ *)
(** ** Input validation *)

Example parse_iso_date_examples :
  parse_iso_date "2024-01-01" = Some ts_2024_01_01
  /\ parse_iso_date "2024-02-30" = None
  /\ parse_iso_date "01/01/2024" = None
  /\ parse_iso_date "soon" = None.
Proof. repeat split; reflexivity. Qed.




(* ------------------------------------------------------------------ *)
(** ** Computations that cannot fail on uniform tapes *)

Lemma safe_ret {A} (P : A -> Prop) (a : A) : P a -> safe_with P (ret a).
Proof. intros H w _. apply ok_ret. split; [exact H | apply evolves_refl]. Qed.

Lemma safe_bind {A B} (P : A -> Prop) (Q : B -> Prop) (c : M A) (k : A -> M B) :
  safe_with P c -> (forall a, P a -> safe_with Q (k a)) ->
  safe_with Q (bind c k).
Proof.
  intros Hc Hk w Hok. apply ok_bind.
  destruct (Hc w Hok) as (a & w1 & Hrun & HP & Hev).
  exists a, w1. split; [exact Hrun|].
  destruct (Hk a HP w1 (evolves_ok _ _ Hev Hok)) as (b & w2 & Hrun2 & HQ & Hev2).
  exists b, w2. split; [exact Hrun2|].
  split; [exact HQ | eapply evolves_trans; eassumption].
Qed.

Lemma safe_weaken {A} (P Q : A -> Prop) (c : M A) :
  safe_with P c -> (forall a, P a -> Q a) -> safe_with Q c.
Proof.
  intros Hc Himp w Hok. eapply ok_weaken; [apply Hc, Hok|].
  intros a w' [HP Hev]. split; auto.
Qed.

Lemma safe_lift {A} (P : A -> Prop) (a : A) : P a -> safe_with P (lift (Ok a)).
Proof. intros H w _. exists a, w. split; [reflexivity|]. split; [exact H | apply evolves_refl]. Qed.

Lemma safe_random_uniform a b :
  (a <= b)%Q -> safe_with (fun x => (a <= x /\ x <= b)%Q) (random_uniform a b).
Proof.
  intros Hab w [Hpy _]. apply ok_random_uniform.
  destruct (uniform_tape_peek _ Hpy) as [H0 H1].
  split; [apply uniform_value_bounds; assumption|].
  apply evolves_set_py. reflexivity.
Qed.

Lemma safe_random_randint a b :
  a <= b -> safe_with (fun n => a <= n <= b) (random_randint a b).
Proof.
  intros Hab w [Hpy _].
  destruct (random_randint_run a b w Hab Hpy) as (n & Hn & Hrun).
  exists n, (set_py w (advance (py_random w))).
  split; [exact Hrun|]. split; [exact Hn|]. apply evolves_set_py. reflexivity.
Qed.

Lemma safe_random_choice {A} (l : list A) :
  l <> [] -> safe_with (fun x => In x l) (random_choice l).
Proof.
  intros Hne w [Hpy _].
  destruct (random_choice_run l w Hne Hpy) as (x & Hx & Hrun).
  exists x, (set_py w (advance (py_random w))).
  split; [exact Hrun|]. split; [eapply nth_error_In; exact Hx|].
  apply evolves_set_py. reflexivity.
Qed.

(** The weighted choice of the log level always lands on a level. *)
Lemma safe_log_level_choice :
  safe_with (fun level => In level log_levels)
            (np_random_choice (map fst level_weights) (map snd level_weights)).
Proof.
  intros w [_ Hnp].
  destruct (uniform_tape_peek _ Hnp) as [H0 H1].
  unfold np_random_choice, ok_with.
  set (u := peek (np_uniform w)) in *.
  assert (Hidx : (searchsorted_right 0 (map snd level_weights) u < 4)%nat).
  { cbn [level_weights map snd searchsorted_right].
    repeat match goal with
           | |- context [Qle_bool ?c u] =>
               let E := fresh "E" in destruct (Qle_bool c u) eqn:E
           end; try lia.
    exfalso. apply Qle_bool_iff in E2. lra. }
  destruct (nth_error (map fst level_weights)
                      (searchsorted_right 0 (map snd level_weights) u))
    as [level|] eqn:E.
  - exists level, (set_np_uniform w (advance (np_uniform w))).
    split; [reflexivity|]. split.
    + apply nth_error_In in E. exact E.
    + apply evolves_set_np_uniform. reflexivity.
  - apply nth_error_None in E.
    change (List.length (map fst level_weights)) with 4%nat in E. lia.
Qed.

Lemma safe_for_each {A B} (P : B -> Prop) (k : nat)
      (xs : list A) (body : A -> M (list B)) :
  (forall x, In x xs ->
     safe_with (fun l => List.length l = k /\ Forall P l) (body x)) ->
  safe_with (fun l => List.length l = (List.length xs * k)%nat /\ Forall P l)
            (for_each xs body).
Proof.
  intros Hbody w Hok.
  eapply ok_weaken.
  - apply (for_each_ok (evolves w) P k); [|apply evolves_refl].
    intros x w1 Hin Hev1.
    destruct (Hbody x Hin w1 (evolves_ok _ _ Hev1 Hok))
      as (l & w2 & Hrun & [Hlen HP] & Hev2).
    exists l, w2. split; [exact Hrun|]. split; [exact Hlen|].
    split; [exact HP | eapply evolves_trans; eassumption].
  - intros l w' (Hlen & HP & Hev). auto.
Qed.

(** A loop body that returns the one item [c] made. *)
Lemma safe_singleton {A} (P : A -> Prop) (c : M A) :
  safe_with P c ->
  safe_with (fun l => List.length l = 1%nat /\ Forall P l) (x <- c ;; ret [x]).
Proof.
  intros Hc. eapply safe_bind; [exact Hc|].
  intros a Ha. apply safe_ret. split; [reflexivity | repeat constructor; exact Ha].
Qed.

(** Chains of draws: every step is safe, only the last [ret] is left to
    the caller. *)
Ltac safe_chain :=
  lazymatch goal with
  | |- safe_with _ (ret _) => apply safe_ret; try exact I
  | |- safe_with _ (bind _ _) =>
      eapply (safe_bind (fun _ => True)); [safe_chain | intros ? _; safe_chain]
  | |- safe_with _ (random_uniform _ _) =>
      eapply safe_weaken; [apply safe_random_uniform; lra | auto]
  | |- safe_with _ (random_randint _ _) =>
      eapply safe_weaken; [apply safe_random_randint; lia | auto]
  | |- safe_with _ (random_choice _) =>
      eapply safe_weaken; [apply safe_random_choice; discriminate | auto]
  end.

(* ------------------------------------------------------------------ *)
(** ** Equipment logs *)

Lemma safe_generate_log_entry equipment ts :
  safe_with (fun log => l_timestamp log = strftime_datetime ts
                        /\ l_equipment_id log = equipment_id equipment)
            (_generate_log_entry equipment ts).
Proof.
  unfold _generate_log_entry.
  eapply safe_bind; [apply safe_log_level_choice|].
  intros level Hlevel.
  assert (Hcases : level = "INFO"%string \/ level = "WARNING"%string
                   \/ level = "ERROR"%string \/ level = "DEBUG"%string).
  { cbn in Hlevel. intuition auto. }
  destruct Hcases as [-> | [-> | [-> | ->]]];
    (eapply safe_bind; [apply safe_lift with (P := fun l => l <> []); discriminate|]);
    intros templates Htemplates;
    (eapply safe_bind; [apply safe_random_choice; exact Htemplates | intros ? ?]);
    cbn [String.eqb Ascii.eqb Bool.eqb];
    safe_chain; split; reflexivity.
Qed.

Lemma safe_generate_equipment_logs self logs_per_day :
  safe_with (fun logs => List.length logs = log_rows self logs_per_day
                         /\ Forall (fun _ => True) logs)
            (generate_equipment_logs self logs_per_day).
Proof.
  unfold generate_equipment_logs, log_rows.
  rewrite <- (py_range_length (num_days self)).
  rewrite <- (py_range_length logs_per_day).
  apply safe_for_each. intros day _.
  apply safe_for_each. intros equipment _.
  eapply safe_weaken.
  - apply (safe_for_each (fun _ => True) 1). intros i _.
    eapply safe_bind; [apply safe_random_randint; lia | intros seconds _].
    eapply safe_weaken; [apply safe_singleton, safe_generate_log_entry|].
    intros l [Hlen _]. split; [exact Hlen|].
    apply Forall_forall. auto.
  - intros l [Hlen HP]. rewrite Nat.mul_1_r in Hlen. auto.
Qed.

(** C4. [generate_equipment_logs] returns
    [num_days * len(equipment) * logs_per_day] entries (for non-negative
    [num_days] and [logs_per_day], in a world with uniform tapes); with
    [logs_per_day = 10], [num_days = 2] and the 5 built-in equipment
    configurations that is a list of exactly 100 entries. *)
Theorem generate_equipment_logs_count
        (self : Generator) (logs_per_day : Z) (w : World) :
  0 <= num_days self ->
  0 <= logs_per_day ->
  world_ok w ->
  exists logs w',
    generate_equipment_logs self logs_per_day w = (Ok logs, w')
    /\ len logs = num_days self * len (equipment self) * logs_per_day
    /\ (num_days self = 2 -> equipment self = _create_equipment_config ->
        logs_per_day = 10 -> len logs = 100).
Proof.
  intros Hdays Hlogs Hok.
  destruct (safe_generate_equipment_logs self logs_per_day w Hok)
    as (logs & w' & Hrun & [Hlen _] & _).
  exists logs, w'. split; [exact Hrun|].
  assert (Hcount : len logs = num_days self * len (equipment self) * logs_per_day).
  { unfold len, log_rows in *. rewrite Hlen.
    rewrite !Nat2Z.inj_mul, !Z2Nat.id by assumption. ring. }
  split; [exact Hcount|].
  intros H2 Heq H10. rewrite Hcount, H2, Heq, H10. reflexivity.
Qed.

Lemma generate_equipment_logs_count_witness :
  exists logs w',
    generate_equipment_logs two_day_generator 10 sample_world = (Ok logs, w')
    /\ len logs = num_days two_day_generator
                  * len (equipment two_day_generator) * 10
    /\ (num_days two_day_generator = 2 ->
        equipment two_day_generator = _create_equipment_config ->
        10 = 10 -> len logs = 100).
Proof.
  apply (generate_equipment_logs_count two_day_generator 10 sample_world).
  - vm_compute. discriminate.
  - lia.
  - exact sample_world_ok.
Defined.

(** The first entry of a sample run. *)
Example first_sample_log :
  match rows_of (generate_equipment_logs two_day_generator 10 sample_world) with
  | log :: _ =>
      l_equipment_id log = "EQ_FURNACE_01"%string
      /\ prefix 10 (l_timestamp log) = "2024-01-01"%string
      /\ In (l_log_level log) log_levels
  | [] => False
  end.
Proof. vm_compute. intuition. Qed.

(* ------------------------------------------------------------------ *)
(** ** The calendar: a date string determines its day

    The Gregorian calendar repeats every 146097 days (400 years).  The
    conversion is checked on every day of one such era and carried to all
    other days by that period. *)

Lemma all_from_spec n i f k :
  all_from n i f = true -> i <= k < i + Z.of_nat n -> f k = true.
Proof.
  revert i. induction n as [|n IH]; intros i Hall Hk; [lia|].
  cbn [all_from] in Hall. apply andb_true_iff in Hall. destruct Hall as [Hi Hrest].
  destruct (Z.eq_dec k i) as [-> | Hne]; [exact Hi|].
  apply (IH (i + 1) Hrest). lia.
Qed.

Lemma civil_day_ok_era : all_from (Z.to_nat 146097) 0 civil_day_ok = true.
Proof. vm_compute. reflexivity. Qed.

Lemma civil_day_ok_all doe : 0 <= doe < 146097 -> civil_day_ok doe = true.
Proof.
  intros H. apply (all_from_spec _ _ _ _ civil_day_ok_era). lia.
Qed.

Lemma civil_from_days_era e doe :
  0 <= doe < 146097 ->
  civil_from_days (146097 * e + doe - 719468)
  = let '(y, m, d) := civil_from_days (doe - 719468) in (y + 400 * e, m, d).
Proof.
  intros Hdoe. unfold civil_from_days.
  replace (146097 * e + doe - 719468 + 719468) with (doe + e * 146097) by lia.
  replace (doe - 719468 + 719468) with doe by lia.
  rewrite Z.div_add by lia. rewrite (Z.div_small doe 146097) by lia.
  replace (doe + e * 146097 - (0 + e) * 146097) with doe by lia.
  replace (doe - 0 * 146097) with doe by lia.
  cbv zeta. f_equal. f_equal. lia.
Qed.

Lemma days_from_civil_era y m d e :
  days_from_civil (y + 400 * e) m d = days_from_civil y m d + 146097 * e.
Proof.
  unfold days_from_civil.
  assert (Hy : (if m <=? 2 then y + 400 * e - 1 else y + 400 * e)
               = (if m <=? 2 then y - 1 else y) + e * 400)
    by (destruct (m <=? 2); lia).
  rewrite Hy. set (y' := if m <=? 2 then y - 1 else y).
  cbv zeta. rewrite Z.div_add by lia.
  replace (y' + e * 400 - (y' / 400 + e) * 400) with (y' - y' / 400 * 400) by lia.
  lia.
Qed.

(** The day number of the date of a day is that day. *)
Lemma days_from_civil_from_days days :
  let '(y, m, d) := civil_from_days days in
  days_from_civil y m d = days
  /\ 1 <= m <= 12 /\ 1 <= d <= 31.
Proof.
  pose proof (Z.div_mod (days + 719468) 146097 ltac:(lia)) as Hdm.
  pose proof (Z.mod_pos_bound (days + 719468) 146097 ltac:(lia)) as Hb.
  set (e := (days + 719468) / 146097) in *.
  set (doe := (days + 719468) mod 146097) in *.
  replace days with (146097 * e + doe - 719468) by lia.
  rewrite (civil_from_days_era e doe Hb).
  pose proof (civil_day_ok_all doe Hb) as Hok. unfold civil_day_ok in Hok.
  destruct (civil_from_days (doe - 719468)) as [[y m] d].
  rewrite !andb_true_iff in Hok.
  destruct Hok as [[[[[[H1 H2] H3] H4] H5] _] _].
  apply Z.eqb_eq in H1. rewrite days_from_civil_era, H1.
  split; [lia|]. lia.
Qed.

Lemma civil_from_days_from_civil days :
  civil_from_days
    (days_from_civil (fst (fst (civil_from_days days)))
                     (snd (fst (civil_from_days days)))
                     (snd (civil_from_days days)))
  = civil_from_days days.
Proof.
  pose proof (days_from_civil_from_days days) as H.
  destruct (civil_from_days days) as [[y m] d] eqn:E. cbn [fst snd].
  destruct H as [-> _]. exact E.
Qed.

Lemma digit_value_digit n : digit_value (digit n) = Some (n mod 10).
Proof.
  unfold digit.
  pose proof (Z.mod_pos_bound n 10 ltac:(lia)) as Hb.
  assert (Hcases : n mod 10 = 0 \/ n mod 10 = 1 \/ n mod 10 = 2 \/ n mod 10 = 3
                   \/ n mod 10 = 4 \/ n mod 10 = 5 \/ n mod 10 = 6
                   \/ n mod 10 = 7 \/ n mod 10 = 8 \/ n mod 10 = 9) by lia.
  repeat destruct Hcases as [-> | Hcases]; try rewrite Hcases; reflexivity.
Qed.

Lemma digits_value_zpad2 n :
  0 <= n <= 99 -> digits_value 0 [digit (n / 10); digit n] = Some n.
Proof.
  intros Hn. cbn [digits_value]. rewrite !digit_value_digit.
  f_equal. rewrite (Z.mod_small (n / 10) 10); [|split; [apply Z.div_pos; lia|]].
  - pose proof (Z.div_mod n 10 ltac:(lia)). lia.
  - apply Z.div_lt_upper_bound; lia.
Qed.

Lemma digits_value_zpad4 n :
  0 <= n <= 9999 ->
  digits_value 0 [digit (n / 1000); digit (n / 100); digit (n / 10); digit n]
  = Some n.
Proof.
  intros Hn. cbn [digits_value]. rewrite !digit_value_digit.
  f_equal.
  pose proof (Z.div_mod n 10 ltac:(lia)) as H1.
  pose proof (Z.div_mod (n / 10) 10 ltac:(lia)) as H2.
  pose proof (Z.div_mod (n / 10 / 10) 10 ltac:(lia)) as H3.
  rewrite !Z.div_div in H2, H3 by lia. rewrite Z.div_div in H3 by lia.
  change (10 * 10) with 100 in *. change (100 * 10) with 1000 in *.
  assert (H4 : (n / 1000) mod 10 = n / 1000).
  { apply Z.mod_small. split; [apply Z.div_pos; lia|].
    apply Z.div_lt_upper_bound; lia. }
  lia.
Qed.

(** Within four-digit years the date string is read back as its day. *)
Lemma parse_iso_date_strftime_date ts :
  0 <= year ts <= 9999 ->
  parse_iso_date (strftime_date ts) = Some (timedelta_days (day_number ts)).
Proof.
  intros Hyear.
  pose proof (days_from_civil_from_days (day_number ts)) as Hrt.
  pose proof (civil_from_days_from_civil (day_number ts)) as Hct.
  unfold strftime_date, year, month, day in *.
  destruct (civil_from_days (day_number ts)) as [[y m] d] eqn:Ec.
  cbn [fst snd] in *. destruct Hrt as (Hdays & Hm & Hd).
  unfold parse_iso_date, zpad4, zpad2.
  cbn [append list_ascii_of_string Ascii.eqb Bool.eqb andb].
  rewrite digits_value_zpad4 by exact Hyear.
  rewrite !digits_value_zpad2 by lia.
  rewrite Hct, !Z.eqb_refl. cbn [andb]. rewrite Hdays. reflexivity.
Qed.

(** So two days with four-digit years and the same date string are the
    same day. *)
Lemma strftime_date_injective d1 d2 :
  0 <= year (timedelta_days d1) <= 9999 ->
  0 <= year (timedelta_days d2) <= 9999 ->
  strftime_date (timedelta_days d1) = strftime_date (timedelta_days d2) ->
  d1 = d2.
Proof.
  intros H1 H2 Heq.
  pose proof (parse_iso_date_strftime_date _ H1) as P1.
  pose proof (parse_iso_date_strftime_date _ H2) as P2.
  rewrite Heq, P2 in P1. injection P1 as P1.
  assert (Hday : forall d, day_number (timedelta_days d) = d).
  { intros d. unfold day_number, timedelta_days.
    rewrite Z.mul_comm. apply Z.div_mul. lia. }
  rewrite !Hday in P1. unfold timedelta_days in P1. lia.
Qed.

Example parse_iso_date_round_trip :
  parse_iso_date (strftime_date (ts_saturday_noon)) = Some (timedelta_days 19728).
Proof. reflexivity. Qed.

(* ------------------------------------------------------------------ *)
(** ** Quality metrics *)

Lemma day_number_shift ts k :
  day_number (ts + timedelta_days k) = day_number ts + k.
Proof.
  unfold day_number, timedelta_days.
  rewrite (Z.mul_comm 86400 k). apply Z.div_add. lia.
Qed.

Lemma strftime_date_day_number ts ts' :
  day_number ts = day_number ts' -> strftime_date ts = strftime_date ts'.
Proof.
  intros H. unfold strftime_date, year, month, day. rewrite H. reflexivity.
Qed.

Lemma safe_quality_metric equipment current_date :
  safe_with maintenance_dates_consistent (quality_metric equipment current_date).
Proof.
  unfold quality_metric.
  do 6 (eapply (safe_bind (fun _ => True)); [safe_chain | intros ? _]).
  eapply safe_bind; [apply safe_random_randint; lia | intros last_delta Hlast].
  eapply safe_bind; [apply safe_random_randint; lia | intros next_delta Hnext].
  do 2 (eapply (safe_bind (fun _ => True)); [safe_chain | intros ? _]).
  apply safe_ret.
  exists (day_number current_date),
         (day_number current_date - last_delta),
         (day_number current_date + next_delta).
  cbn [m_date last_maintenance_date next_maintenance_date].
  assert (Hday : forall d, day_number (timedelta_days d) = d).
  { intros d. unfold day_number, timedelta_days.
    rewrite Z.mul_comm. apply Z.div_mul. lia. }
  split; [apply strftime_date_day_number; rewrite Hday; reflexivity|].
  split.
  { apply strftime_date_day_number. rewrite Hday.
    replace (current_date - timedelta_days last_delta)
      with (current_date + timedelta_days (- last_delta))
      by (unfold timedelta_days; lia).
    rewrite day_number_shift. lia. }
  split.
  { apply strftime_date_day_number. rewrite Hday. apply day_number_shift. }
  cbv beta in Hlast, Hnext.
  split; [lia|]. split; [lia|].
  intros Hl Hc Hn. unfold four_digit_year in Hl, Hc, Hn.
  rewrite (strftime_date_day_number current_date
             (timedelta_days (day_number current_date)))
    by (rewrite Hday; reflexivity).
  rewrite (strftime_date_day_number (current_date - timedelta_days last_delta)
             (timedelta_days (day_number current_date - last_delta))).
  2:{ rewrite Hday.
      replace (current_date - timedelta_days last_delta)
        with (current_date + timedelta_days (- last_delta))
        by (unfold timedelta_days; lia).
      rewrite day_number_shift. lia. }
  rewrite (strftime_date_day_number (current_date + timedelta_days next_delta)
             (timedelta_days (day_number current_date + next_delta)))
    by (rewrite Hday; apply day_number_shift).
  rewrite !parse_iso_date_strftime_date by assumption.
  rewrite !Hday. repeat split; reflexivity.
Qed.

Lemma safe_generate_quality_metrics self :
  safe_with (fun metrics =>
               List.length metrics
               = (Z.to_nat (num_days self) * List.length (equipment self))%nat
               /\ Forall maintenance_dates_consistent metrics)
            (generate_quality_metrics self).
Proof.
  unfold generate_quality_metrics.
  rewrite <- (py_range_length (num_days self)).
  apply safe_for_each. intros day _.
  eapply safe_weaken.
  - apply (safe_for_each maintenance_dates_consistent 1). intros equipment _.
    apply safe_singleton, safe_quality_metric.
  - intros l [Hlen HP]. rewrite Nat.mul_1_r in Hlen. auto.
Qed.

(** C10. [generate_quality_metrics] (in a world whose [random] tape is
    uniform) returns one record per day and equipment, and in every
    record [last_maintenance_date] is the date 1 to 30 days before the
    record's [date], hence strictly earlier, and [next_maintenance_date]
    the date 1 to 30 days after it, hence strictly later; with four-digit
    years the three strings are read back as exactly these days. *)
Theorem maintenance_dates_around_record_date (self : Generator) (w : World) :
  world_ok w ->
  exists metrics w',
    generate_quality_metrics self w = (Ok metrics, w')
    /\ len metrics = Z.max 0 (num_days self) * len (equipment self)
    /\ Forall maintenance_dates_consistent metrics.
Proof.
  intros Hok.
  destruct (safe_generate_quality_metrics self w Hok)
    as (metrics & w' & Hrun & [Hlen HP] & _).
  exists metrics, w'. split; [exact Hrun|]. split; [|exact HP].
  unfold len. rewrite Hlen, Nat2Z.inj_mul.
  destruct (Z.max_spec 0 (num_days self)) as [[Hlt ->] | [Hle ->]].
  - rewrite Z2Nat.id by lia. reflexivity.
  - replace (Z.to_nat (num_days self)) with 0%nat by lia. reflexivity.
Qed.

Lemma maintenance_dates_around_record_date_witness :
  exists metrics w',
    generate_quality_metrics two_day_generator sample_world = (Ok metrics, w')
    /\ len metrics = Z.max 0 (num_days two_day_generator)
                     * len (equipment two_day_generator)
    /\ Forall maintenance_dates_consistent metrics.
Proof.
  apply (maintenance_dates_around_record_date two_day_generator sample_world).
  exact sample_world_ok.
Defined.

(** The first metric of the sample run. *)
Example first_sample_metric :
  match rows_of (generate_quality_metrics two_day_generator sample_world) with
  | metric :: _ =>
      m_date metric = "2024-01-01"%string
      /\ last_maintenance_date metric = "2023-12-22"%string
      /\ next_maintenance_date metric = "2024-01-23"%string
  | [] => False
  end.
Proof. vm_compute. repeat split. Qed.

(* ------------------------------------------------------------------ *)
(** ** Saving: the split by date *)

Lemma save_sensor_data_by_date_raises output_dir sensor_df w :
  sensor_df <> [] ->
  save_sensor_data_by_date output_dir sensor_df w = (Raise dt_accessor_error, w).
Proof.
  intros Hne. unfold save_sensor_data_by_date, df_timestamp_column.
  destruct sensor_df as [|row rows]; [contradiction|]. reflexivity.
Qed.

Lemma save_sensor_data_by_date_empty output_dir w :
  save_sensor_data_by_date output_dir [] w = (Raise (KeyError "timestamp"), w).
Proof. reflexivity. Qed.

(** C7. [save_data] never writes a per-date file.  On a generator with at
    least one day and one sensor it writes [sensor_data.csv] and then
    raises [AttributeError]: the [timestamp] column of the frame holds the
    strings made by [strftime], and [.dt] is refused on them.  The rows of
    the frame are therefore omitted from the per-date files, and the logs
    are never generated. *)
Theorem save_data_stops_at_sensor_split
        (np_sin : Q -> Q) (np_pi : Q)
        (self : Generator) (output_dir : string) (w : World) :
  1 <= num_days self ->
  sensors self <> [] ->
  world_ok w ->
  exists sensor_df w',
    fst (generate_sensor_data np_sin np_pi self 1440 w) = Ok sensor_df
    /\ sensor_df <> []
    /\ save_data np_sin np_pi self output_dir w = (Raise dt_accessor_error, w')
    /\ files w'
       = files w ++ [((output_dir ++ "/sensor_data.csv")%string,
                      SensorCsv sensor_df)].
Proof.
  intros Hdays Hsensors Hok.
  destruct (generate_sensor_data_ok np_sin np_pi self 1440 w ltac:(lia) Hok)
    as (df & w1 & Hrun & Hlen & _ & Hev).
  assert (Hne : df <> []).
  { intros ->. cbn [List.length] in Hlen. unfold sensor_rows in Hlen.
    change (1440 / 1440) with 1 in Hlen.
    change (minutes_per_day 1) with 1440 in Hlen.
    destruct (sensors self) as [|s l]; [contradiction|].
    cbn [List.length] in Hlen. nia. }
  exists df, (add_file w1 (output_dir ++ "/sensor_data.csv") (SensorCsv df)).
  split; [rewrite Hrun; reflexivity|]. split; [exact Hne|]. split.
  - unfold save_data. rewrite (bind_ok _ _ _ _ _ Hrun).
    unfold bind at 1. unfold write_file at 1.
    unfold bind at 1. rewrite save_sensor_data_by_date_raises by exact Hne.
    reflexivity.
  - cbn [add_file files]. rewrite (ev_files _ _ Hev). reflexivity.
Qed.

Lemma save_data_stops_at_sensor_split_witness :
  exists sensor_df w',
    fst (generate_sensor_data sample_sin sample_pi sample_generator 1440
                              sample_world) = Ok sensor_df
    /\ sensor_df <> []
    /\ save_data sample_sin sample_pi sample_generator "./sample_data"
                 sample_world = (Raise dt_accessor_error, w')
    /\ files w'
       = files sample_world
         ++ [(("./sample_data" ++ "/sensor_data.csv")%string,
              SensorCsv sensor_df)].
Proof.
  apply (save_data_stops_at_sensor_split sample_sin sample_pi sample_generator
           "./sample_data" sample_world).
  - vm_compute. discriminate.
  - discriminate.
  - exact sample_world_ok.
Defined.

(** Without a day to generate the frame has no column and the lookup of
    [timestamp] raises [KeyError]. *)
Remark save_data_no_days np_sin np_pi self output_dir w :
  num_days self <= 0 ->
  fst (save_data np_sin np_pi self output_dir w) = Raise (KeyError "timestamp").
Proof.
  intros Hdays. unfold save_data.
  rewrite (bind_ok _ _ _ _ _
             (generate_sensor_data_no_days np_sin np_pi self 1440 w Hdays)).
  reflexivity.
Qed.

(* ------------------------------------------------------------------ *)
(** ** The split of the logs, were it reached

    The loop that fills [logs_by_date] loses and duplicates nothing. *)

Lemma dict_append_keys d date log :
  map fst (dict_append d date log)
  = if existsb (String.eqb date) (map fst d) then map fst d
    else map fst d ++ [date].
Proof.
  induction d as [|[k v] d IH]; [reflexivity|].
  cbn [dict_append map fst existsb].
  rewrite (String.eqb_sym date k).
  destruct (String.eqb k date) eqn:E; [reflexivity|].
  cbn [map fst orb]. rewrite IH.
  destruct (existsb (String.eqb date) (map fst d)); reflexivity.
Qed.

Lemma dict_append_concat d date log :
  Permutation (List.concat (map snd (dict_append d date log)))
              (List.concat (map snd d) ++ [log]).
Proof.
  induction d as [|[k v] d IH]; [reflexivity|].
  cbn [dict_append]. destruct (String.eqb k date).
  - cbn [map snd List.concat]. rewrite <- !app_assoc.
    apply Permutation_app_head, Permutation_app_comm.
  - cbn [map snd List.concat]. rewrite <- app_assoc.
    apply Permutation_app_head, IH.
Qed.

Lemma dict_append_dates d log :
  Forall (fun item => Forall (fun l => log_date l = fst item) (snd item)) d ->
  Forall (fun item => Forall (fun l => log_date l = fst item) (snd item))
         (dict_append d (log_date log) log).
Proof.
  induction d as [|[k v] d IH]; intros H.
  - repeat constructor.
  - inversion H as [|? ? Hhead Htail]; subst.
    cbn [dict_append]. destruct (String.eqb k (log_date log)) eqn:E.
    + apply String.eqb_eq in E. constructor; [|exact Htail].
      cbn [fst snd] in *. apply Forall_app. split; [exact Hhead|].
      constructor; [symmetry; exact E | constructor].
    + constructor; [exact Hhead | apply IH, Htail].
Qed.

Lemma dict_append_invariant d seen log :
  split_invariant d seen ->
  split_invariant (dict_append d (log_date log) log) (seen ++ [log]).
Proof.
  intros [Hperm Hkeys Hdates]. constructor.
  - rewrite dict_append_concat. apply Permutation_app_tail, Hperm.
  - rewrite dict_append_keys.
    destruct (existsb (String.eqb (log_date log)) (map fst d)) eqn:E;
      [exact Hkeys|].
    apply NoDup_app; [exact Hkeys | repeat constructor; intros [] |].
    intros k Hin [<- | []].
    assert (Hex : existsb (String.eqb (log_date log)) (map fst d) = true).
    { apply existsb_exists. exists (log_date log).
      split; [exact Hin | apply String.eqb_refl]. }
    congruence.
  - apply dict_append_dates, Hdates.
Qed.

Lemma fold_dict_append_invariant logs d seen :
  split_invariant d seen ->
  split_invariant
    (fold_left (fun d log => dict_append d (log_date log) log) logs d)
    (seen ++ logs).
Proof.
  revert d seen. induction logs as [|log logs IH]; intros d seen Hinv.
  - rewrite app_nil_r. exact Hinv.
  - cbn [fold_left].
    replace (seen ++ log :: logs) with ((seen ++ [log]) ++ logs)
      by (rewrite <- app_assoc; reflexivity).
    apply IH, dict_append_invariant, Hinv.
Qed.

(** The per-date lists of [logs_by_date] together hold every log entry
    once; the dates are distinct and each list holds the entries of its
    date. *)
Lemma split_logs_by_date_lossless logs :
  Permutation (List.concat (map snd (split_logs_by_date logs))) logs
  /\ NoDup (map fst (split_logs_by_date logs))
  /\ Forall (fun item => Forall (fun log => log_date log = fst item) (snd item))
            (split_logs_by_date logs).
Proof.
  destruct (fold_dict_append_invariant logs [] []) as [H1 H2 H3].
  - constructor; constructor.
  - repeat split; assumption.
Qed.

(* ================================================================== *)
(** * Further properties *)

(* ------------------------------------------------------------------ *)
(** ** Inversion of runs *)

Lemma bind_inv {A B} (c : M A) (k : A -> M B) w b w' :
  bind c k w = (Ok b, w') ->
  exists a w1, c w = (Ok a, w1) /\ k a w1 = (Ok b, w').
Proof.
  unfold bind. destruct (c w) as [[a|e] w1]; [|discriminate].
  intros H. exists a, w1. split; [reflexivity | exact H].
Qed.

Lemma for_each_no_rows {A B} (xs : list A) (body : A -> M (list B)) w :
  (forall x, In x xs -> body x w = (Ok [], w)) ->
  for_each xs body w = (Ok [], w).
Proof.
  induction xs as [|x xs IH]; intros Hbody; [reflexivity|].
  cbn [for_each].
  rewrite (bind_ok _ _ _ _ _ (Hbody x (or_introl eq_refl))).
  rewrite (bind_ok _ _ _ _ _ (IH (fun y Hy => Hbody y (or_intror Hy)))).
  reflexivity.
Qed.

Lemma py_range_In n i : In i (py_range n) <-> 0 <= i < n.
Proof.
  unfold py_range. rewrite in_map_iff. split.
  - intros (k & <- & Hk). apply in_seq in Hk. lia.
  - intros H. exists (Z.to_nat i). split; [lia|]. apply in_seq. lia.
Qed.

(* ------------------------------------------------------------------ *)
(** ** [records_per_day] at zero and below *)

(** X1. With [records_per_day = 0] the quotient [1440 // records_per_day] of
    the first day raises [ZeroDivisionError] before any draw (on a
    generator of at least one day). *)
Theorem zero_records_per_day_raises
        (np_sin : Q -> Q) (np_pi : Q) (self : Generator) (w : World) :
  1 <= num_days self ->
  generate_sensor_data np_sin np_pi self 0 w = (Raise ZeroDivisionError, w).
Proof.
  intros Hdays. unfold generate_sensor_data, py_range.
  destruct (Z.to_nat (num_days self)) as [|n] eqn:En; [lia|].
  reflexivity.
Qed.

Lemma zero_records_per_day_raises_witness :
  generate_sensor_data sample_sin sample_pi sample_generator 0 sample_world
  = (Raise ZeroDivisionError, sample_world).
Proof.
  apply (zero_records_per_day_raises sample_sin sample_pi sample_generator
           sample_world).
  vm_compute. discriminate.
Defined.

Lemma negative_step records_per_day :
  records_per_day < 0 ->
  -1440 <= 1440 / records_per_day < 0.
Proof.
  intros Hneg.
  pose proof (Z.div_mod 1440 records_per_day ltac:(lia)) as Hdm.
  pose proof (Z.mod_neg_bound 1440 records_per_day Hneg) as Hb.
  split; nia.
Qed.

Lemma py_range3_negative_step step :
  -1440 <= step < 0 -> py_range3 0 1440 step = Ok [].
Proof.
  intros Hstep. unfold py_range3.
  destruct (step =? 0) eqn:E0; [apply Z.eqb_eq in E0; lia|].
  destruct (0 <? step) eqn:E1; [apply Z.ltb_lt in E1; lia|].
  assert (Hq : (0 - 1440 - step - 1) / - step < 0).
  { apply Z.div_lt_upper_bound; lia. }
  replace (Z.to_nat ((0 - 1440 - step - 1) / - step)) with 0%nat by lia.
  reflexivity.
Qed.

(** X2. A negative [records_per_day] is accepted: the step is negative, the
    [range] of every day is empty, and the call returns a frame without
    rows, having drawn nothing. *)
Theorem negative_records_per_day_returns_no_rows
        (np_sin : Q -> Q) (np_pi : Q)
        (self : Generator) (records_per_day : Z) (w : World) :
  records_per_day < 0 ->
  generate_sensor_data np_sin np_pi self records_per_day w = (Ok [], w).
Proof.
  intros Hneg. unfold generate_sensor_data.
  apply for_each_no_rows. intros day _.
  unfold floordiv.
  destruct (records_per_day =? 0) eqn:E0; [apply Z.eqb_eq in E0; lia|].
  unfold bind at 1, lift at 1. unfold bind at 1, lift at 1.
  rewrite (py_range3_negative_step _ (negative_step _ Hneg)).
  reflexivity.
Qed.

Lemma negative_records_per_day_returns_no_rows_witness :
  generate_sensor_data sample_sin sample_pi sample_generator (-7) sample_world
  = (Ok [], sample_world).
Proof.
  apply (negative_records_per_day_returns_no_rows sample_sin sample_pi
           sample_generator (-7) sample_world).
  reflexivity.
Defined.

(* ------------------------------------------------------------------ *)
(** ** What a returned record holds *)

Lemma inject_anomaly_inv sensor base value w flag v w' :
  inject_anomaly sensor base value w = (Ok (flag, v), w') ->
  draws (py_random w') = draws (py_random w)
  /\ (flag = true -> exists f, In f anomaly_factors /\ v = (base * f)%Q)
  /\ (flag = false -> v = value).
Proof.
  unfold inject_anomaly. intros H.
  apply bind_inv in H. destruct H as (u & w1 & Hu & H).
  unfold random_random in Hu. injection Hu as <- <-.
  destruct (Qlt_bool _ _).
  - apply bind_inv in H. destruct H as (f & w2 & Hf & H).
    injection H as <- <- <-.
    unfold random_choice, anomaly_factors in Hf.
    apply bind_inv in Hf. destruct Hf as (i & w3 & Hi & Hf).
    rewrite randbelow_run in Hi. injection Hi as <- <-.
    destruct (nth_error _ _) as [x|] eqn:Ex; [|discriminate].
    injection Hf as <- <-.
    split; [reflexivity|]. split; [|discriminate].
    intros _. exists x. split; [|reflexivity].
    eapply nth_error_In. exact Ex.
  - injection H as <- <- <-.
    split; [reflexivity|]. split; [discriminate | reflexivity].
Qed.

(** The parts of a record, read off a run of the loop body. *)
Lemma sensor_record_fields np_sin np_pi sensor ts w record w' :
  uniform_tape (py_random w) ->
  sensor_record np_sin np_pi sensor ts w = (Ok record, w') ->
  reading_key record = sensor_key ts sensor
  /\ exists base value score w1 w2,
       fst (_generate_realistic_value np_sin np_pi sensor ts w) = Ok base
       /\ (r_is_anomaly record = true ->
           r_status record = "error"%string
           /\ exists f, In f anomaly_factors /\ value = (base * f)%Q)
       /\ (r_is_anomaly record = false ->
           r_status record = "normal"%string
           /\ value = (base + (0 + 0.1 * peek (np_normal w)))%Q)
       /\ uniform_tape (py_random w1)
       /\ _calculate_quality_score sensor value w1 = (Ok score, w2)
       /\ sensor_specific_fields sensor value (py_round value 3) w2
          = (Ok (r_extra record), w')
       /\ r_value record = py_round value 3
       /\ r_quality_score record = py_round score 3.
Proof.
  intros Htape H. unfold sensor_record in H.
  apply bind_inv in H. destruct H as (base & wa & Hval & H).
  pose proof Hval as Hbase.
  rewrite generate_realistic_value_run in Hval. injection Hval as _ <-.
  apply bind_inv in H. destruct H as (noise & wb & Hnoise & H).
  unfold np_random_normal in Hnoise. injection Hnoise as <- <-.
  apply bind_inv in H. destruct H as ([flag value] & wc & Hinj & H).
  apply inject_anomaly_inv in Hinj. destruct Hinj as (Htc & Htrue & Hfalse).
  cbn [py_random set_np_normal set_py] in Htc.
  rewrite draws_advance_by in Htc.
  assert (Hc : uniform_tape (py_random wc)).
  { intros n. rewrite Htc. apply Htape. }
  apply bind_inv in H. destruct H as (score & wd & Hscore & H).
  apply bind_inv in H. destruct H as (extra & we & Hextra & H).
  injection H as <- <-.
  split; [reflexivity|].
  exists base, value, score, wc, wd.
  cbn [r_extra r_value r_quality_score r_is_anomaly r_status].
  split; [rewrite Hbase; reflexivity|].
  split; [intros ->; split; [reflexivity | apply Htrue; reflexivity]|].
  split; [intros ->; split; [reflexivity | apply Hfalse; reflexivity]|].
  split; [exact Hc|]. split; [exact Hscore|]. split; [exact Hextra|].
  split; reflexivity.
Qed.

Lemma sensor_specific_fields_shape sensor value rounded w extra w' :
  sensor_specific_fields sensor value rounded w = (Ok extra, w') ->
  (s_type sensor = "temperature"%string
   /\ extra = [("temperature", FNum rounded); ("unit", FStr "celsius")]%string)
  \/ (s_type sensor = "humidity"%string
      /\ extra = [("humidity", FNum rounded); ("unit", FStr "percent")]%string)
  \/ (s_type sensor = "pressure"%string
      /\ extra = [("pressure", FNum rounded); ("unit", FStr "psi")]%string)
  \/ (s_type sensor = "vibration"%string
      /\ exists x y z,
           extra = [("vibration_magnitude", FNum rounded);
                    ("vibration_x", FNum x);
                    ("vibration_y", FNum y);
                    ("vibration_z", FNum z);
                    ("unit", FStr "g")]%string)
  \/ (s_type sensor <> "temperature"%string
      /\ s_type sensor <> "humidity"%string
      /\ s_type sensor <> "pressure"%string
      /\ s_type sensor <> "vibration"%string
      /\ extra = []).
Proof.
  unfold sensor_specific_fields. intros H.
  destruct (String.eqb_spec (s_type sensor) "temperature") as [Et|Et].
  { injection H as <- _. left. split; [exact Et | reflexivity]. }
  destruct (String.eqb_spec (s_type sensor) "humidity") as [Eh|Eh].
  { injection H as <- _. right; left. split; [exact Eh | reflexivity]. }
  destruct (String.eqb_spec (s_type sensor) "pressure") as [Ep|Ep].
  { injection H as <- _. right; right; left. split; [exact Ep | reflexivity]. }
  destruct (String.eqb_spec (s_type sensor) "vibration") as [Ev|Ev].
  { unfold bind, np_random_normal in H. injection H as <- _.
    right; right; right; left. split; [exact Ev|].
    eexists _, _, _. reflexivity. }
  injection H as <- _. right; right; right; right. repeat split; assumption.
Qed.

(** X4. Every record that [generate_sensor_data] returns carries the
    sensor-specific items of its type: the measured quantity repeats the
    rounded [value], the unit goes with the type, a vibration record has
    its three axes, and a record of any other type has no extra item. *)
Theorem sensor_specific_items_by_type
        (np_sin : Q -> Q) (np_pi : Q)
        (self : Generator) (records_per_day : Z) (w : World) :
  world_ok w ->
  Forall extra_fields_consistent
         (rows_of (generate_sensor_data np_sin np_pi self records_per_day w)).
Proof.
  intros Hok. unfold rows_of.
  destruct (generate_sensor_data np_sin np_pi self records_per_day w)
    as [[df|e] w'] eqn:Erun; cbn [fst]; [|constructor].
  destruct (generate_sensor_data_rows _ _ _ _ _ _ _ Hok Erun) as [Hrows _].
  eapply Forall_impl; [|exact Hrows].
  intros record (sensor & ts & w0 & _ & Htape & Hrec).
  destruct (sensor_record np_sin np_pi sensor ts w0) as [[r|e] w1] eqn:Er;
    cbn in Hrec; [|discriminate].
  injection Hrec as ->.
  destruct (sensor_record_fields _ _ _ _ _ _ _ Htape Er)
    as (Hkey & base & value & score & wa & wb & _ & _ & _ & _ & _
        & Hextra & Hvalue & _).
  apply sensor_specific_fields_shape in Hextra.
  unfold reading_key, sensor_key in Hkey.
  injection Hkey as _ _ _ Htype _.
  unfold extra_fields_consistent. rewrite Htype, Hvalue. exact Hextra.
Qed.

Lemma sensor_specific_items_by_type_witness :
  Forall extra_fields_consistent
         (rows_of (generate_sensor_data sample_sin sample_pi sample_generator
                                        24 sample_world))
  /\ map (fun record => List.length (r_extra record))
         (firstn 5 (rows_of (generate_sensor_data sample_sin sample_pi
                               sample_generator 24 sample_world)))
     = [2; 2; 2; 2; 5]%nat.
Proof.
  split.
  - apply (sensor_specific_items_by_type sample_sin sample_pi sample_generator
             24 sample_world).
    exact sample_world_ok.
  - vm_compute. reflexivity.
Defined.

(* ------------------------------------------------------------------ *)
(** ** The score band and the range of the final value *)

Lemma py_round3_between lo hi a b x :
  a == inject_Z lo / inject_Z 1000 ->
  b == inject_Z hi / inject_Z 1000 ->
  (a <= x)%Q -> (x <= b)%Q ->
  (a <= py_round x 3 /\ py_round x 3 <= b)%Q.
Proof.
  intros Ea Eb Hlo Hhi.
  pose proof (py_round_between lo hi x 3 ltac:(lia)) as H.
  change (inject_Z (10 ^ 3)) with (inject_Z 1000) in H.
  rewrite <- Ea, <- Eb in H. apply H; assumption.
Qed.

Ltac band_cases :=
  split; [|split]; (split; intros ?);
  first [assumption | tauto | lra | (exfalso; lra) | (split; lra)].

Lemma rounded_score_band sensor value w score w' :
  uniform_tape (py_random w) ->
  _calculate_quality_score sensor value w = (Ok score, w') ->
  band_matches sensor value (py_round score 3).
Proof.
  intros Htape H.
  destruct (uniform_tape_peek _ Htape) as [Hu0 Hu1].
  rewrite calculate_quality_score_run in H. injection H as <- _.
  pose proof (in_range_test (normal_range sensor) value) as Hn.
  pose proof (in_range_test (alert_threshold sensor) value) as Ha.
  unfold band_matches.
  destruct (Qle_bool (fst (normal_range sensor)) value
            && Qle_bool value (snd (normal_range sensor))).
  - assert (Hin : in_range (normal_range sensor) value) by (apply Hn; reflexivity).
    destruct (uniform_value_bounds 0.95 1.0 _ ltac:(lra) Hu0 Hu1) as [B1 B2].
    destruct (py_round3_between 950 1000 0.95 1.0 _ ltac:(reflexivity)
                ltac:(reflexivity) B1 B2) as [R1 R2].
    band_cases.
  - assert (Hout : ~ in_range (normal_range sensor) value).
    { intros Hin. apply Hn in Hin. discriminate. }
    destruct (Qle_bool (fst (alert_threshold sensor)) value
              && Qle_bool value (snd (alert_threshold sensor))).
    + assert (Hin : in_range (alert_threshold sensor) value)
        by (apply Ha; reflexivity).
      destruct (uniform_value_bounds 0.7 0.9 _ ltac:(lra) Hu0 Hu1) as [B1 B2].
      destruct (py_round3_between 700 900 0.7 0.9 _ ltac:(reflexivity)
                  ltac:(reflexivity) B1 B2) as [R1 R2].
      band_cases.
    + assert (Hout' : ~ in_range (alert_threshold sensor) value).
      { intros Hin. apply Ha in Hin. discriminate. }
      destruct (uniform_value_bounds 0.1 0.6 _ ltac:(lra) Hu0 Hu1) as [B1 B2].
      destruct (py_round3_between 100 600 0.1 0.6 _ ltac:(reflexivity)
                  ltac:(reflexivity) B1 B2) as [R1 R2].
      band_cases.
Qed.

(** X5. In every record that [generate_sensor_data] returns, the band of
    [quality_score] and the range of the final value (the one [value]
    rounds) determine each other: the score is at least 0.95 exactly when
    the final value is in the normal range, within [[0.7, 0.9]] exactly
    when it is in the alert range only, and at most 0.6 exactly when it is
    in neither. *)
Theorem quality_band_tells_value_range
        (np_sin : Q -> Q) (np_pi : Q)
        (self : Generator) (records_per_day : Z) (w : World) :
  world_ok w ->
  Forall (scored_on_final_value self)
         (rows_of (generate_sensor_data np_sin np_pi self records_per_day w)).
Proof.
  intros Hok. unfold rows_of.
  destruct (generate_sensor_data np_sin np_pi self records_per_day w)
    as [[df|e] w'] eqn:Erun; cbn [fst]; [|constructor].
  destruct (generate_sensor_data_rows _ _ _ _ _ _ _ Hok Erun) as [Hrows _].
  eapply Forall_impl; [|exact Hrows].
  intros record (sensor & ts & w0 & Hin & Htape & Hrec).
  destruct (sensor_record np_sin np_pi sensor ts w0) as [[r|e] w1] eqn:Er;
    cbn in Hrec; [|discriminate].
  injection Hrec as ->.
  destruct (sensor_record_fields _ _ _ _ _ _ _ Htape Er)
    as (Hkey & base & value & score & wa & wb & _ & _ & _ & Hta & Hscore
        & _ & Hvalue & Hq).
  unfold reading_key, sensor_key in Hkey. injection Hkey as _ Hid _ _ _.
  exists sensor, value.
  split; [exact Hin|]. split; [exact Hid|]. split; [exact Hvalue|].
  rewrite Hq. exact (rounded_score_band _ _ _ _ _ Hta Hscore).
Qed.

Lemma quality_band_tells_value_range_witness :
  Forall (scored_on_final_value sample_generator)
         (rows_of (generate_sensor_data sample_sin sample_pi sample_generator
                                        24 sample_world))
  /\ List.length
       (rows_of (generate_sensor_data sample_sin sample_pi sample_generator
                                      24 sample_world)) = 120%nat.
Proof.
  split.
  - apply (quality_band_tells_value_range sample_sin sample_pi sample_generator
             24 sample_world).
    exact sample_world_ok.
  - vm_compute. reflexivity.
Defined.

(* ------------------------------------------------------------------ *)
(** ** The order of the rows and their fixed columns *)

(** A loop whose body returns items that [f] maps to [g x] returns items
    that [f] maps to the concatenation of the [g x]. *)
Lemma for_each_map {A B C} (I : World -> Prop) (f : B -> C) (g : A -> list C)
      (xs : list A) (body : A -> M (list B)) :
  (forall x w, In x xs -> I w ->
     ok_with (body x) w (fun l w' => map f l = g x /\ I w')) ->
  forall w, I w ->
    ok_with (for_each xs body) w
            (fun l w' => map f l = flat_map g xs /\ I w').
Proof.
  induction xs as [|x xs IH]; intros Hbody w HI.
  - apply ok_ret. split; [reflexivity | exact HI].
  - cbn [for_each flat_map].
    destruct (Hbody x w (or_introl eq_refl) HI) as (l1 & w1 & Hrun1 & Hm1 & HI1).
    destruct (IH (fun y w0 Hy => Hbody y w0 (or_intror Hy)) w1 HI1)
      as (l2 & w2 & Hrun2 & Hm2 & HI2).
    exists (l1 ++ l2), w2. split.
    + rewrite (bind_ok _ _ _ _ _ Hrun1), (bind_ok _ _ _ _ _ Hrun2). reflexivity.
    + split; [|exact HI2]. rewrite map_app, Hm1, Hm2. reflexivity.
Qed.

Lemma py_range3_day_minutes step :
  0 < step -> py_range3 0 1440 step = Ok (day_minutes step).
Proof.
  intros Hstep. unfold py_range3, day_minutes, minutes_per_day.
  destruct (step =? 0) eqn:E0; [apply Z.eqb_eq in E0; lia|].
  destruct (0 <? step) eqn:E1; [|apply Z.ltb_ge in E1; lia].
  rewrite Z.sub_0_r. reflexivity.
Qed.

(** X3. For [records_per_day] from 1 to 1440 the rows come day by day, within
    a day at the minutes [0, step, 2 * step, ...] below 1440 with
    [step = 1440 // records_per_day], and within a minute in the order of
    the sensor configuration; the timestamp, sensor id, equipment id,
    sensor type and location of each row are those of its place in this
    grid, whatever the draws. *)
Theorem sensor_rows_follow_grid
        (np_sin : Q -> Q) (np_pi : Q)
        (self : Generator) (records_per_day : Z) (w : World) :
  1 <= records_per_day <= 1440 ->
  world_ok w ->
  exists df w',
    generate_sensor_data np_sin np_pi self records_per_day w = (Ok df, w')
    /\ map reading_key df = sensor_grid self (1440 / records_per_day).
Proof.
  intros Hrpd Hok.
  assert (Hstep : 0 < 1440 / records_per_day) by (apply Z.div_str_pos; lia).
  assert (Hrun : ok_with (generate_sensor_data np_sin np_pi self records_per_day) w
                   (fun df w' => map reading_key df
                                 = sensor_grid self (1440 / records_per_day)
                                 /\ evolves w w')).
  { unfold generate_sensor_data, sensor_grid.
    apply (for_each_map (evolves w)); [|apply evolves_refl].
    intros day w1 _ Hev1. unfold floordiv.
    destruct (records_per_day =? 0) eqn:E0; [apply Z.eqb_eq in E0; lia|].
    unfold bind at 1, lift at 1. unfold bind at 1, lift at 1.
    rewrite (py_range3_day_minutes _ Hstep).
    apply (for_each_map (evolves w)); [|exact Hev1].
    intros minute w2 _ Hev2.
    eapply ok_weaken.
    - apply (for_each_map (evolves w) reading_key
               (fun sensor =>
                  [sensor_key (start_date self + timedelta_days day
                               + timedelta_minutes minute) sensor]));
        [|exact Hev2].
      intros sensor w3 _ Hev3.
      assert (Htape : uniform_tape (py_random w3))
        by (apply (evolves_ok _ _ Hev3 Hok)).
      destruct (sensor_record_run np_sin np_pi sensor
                  (start_date self + timedelta_days day
                   + timedelta_minutes minute) w3 Htape)
        as (base & record & w4 & _ & Hrec & Hev4 & _ & _).
      destruct (sensor_record_fields _ _ _ _ _ _ _ Htape Hrec) as [Hkey _].
      exists [record], w4. split.
      + rewrite (bind_ok _ _ _ _ _ Hrec). reflexivity.
      + split; [cbn [map]; rewrite Hkey; reflexivity|].
        eapply evolves_trans; eassumption.
    - intros l w' [Hm Hev]. split; [|exact Hev].
      rewrite Hm. clear. induction (sensors self) as [|s l' IH]; [reflexivity|].
      cbn [flat_map map app]. rewrite IH. reflexivity. }
  destruct Hrun as (df & w' & Hrun & Hmap & _).
  exists df, w'. split; assumption.
Qed.

Lemma sensor_rows_follow_grid_witness :
  exists df w',
    generate_sensor_data sample_sin sample_pi sample_generator 7 sample_world
    = (Ok df, w')
    /\ map reading_key df = sensor_grid sample_generator (1440 / 7).
Proof.
  apply (sensor_rows_follow_grid sample_sin sample_pi sample_generator 7
           sample_world).
  - split; vm_compute; discriminate.
  - exact sample_world_ok.
Defined.

(** The grid for 7 records per day: 8 minutes a day, 205 apart. *)
Example sensor_grid_205 :
  day_minutes (1440 / 7) = [0; 205; 410; 615; 820; 1025; 1230; 1435]
  /\ List.length (sensor_grid sample_generator (1440 / 7)) = 40%nat
  /\ nth_error (sensor_grid sample_generator (1440 / 7)) 6
     = Some ("2024-01-01 03:25:00", "TEMP_002", "EQ_FURNACE_02",
             "temperature", "Production Line B")%string.
Proof. repeat split; reflexivity. Qed.

(* ------------------------------------------------------------------ *)
(** ** Anomalies are scored like any other value *)

(** X6. An anomalous record has status "error" and holds [base_value * f]
    rounded, for a factor [f] of the list; its quality score follows the
    range of that product alone, so an anomaly that lands in the normal
    range is scored 0.95 or more. *)
Theorem anomaly_scored_by_its_value
        (np_sin : Q -> Q) (np_pi : Q)
        (sensor : SensorConfig) (ts : Z) (w : World)
        (record : SensorReading) (w' : World) :
  uniform_tape (py_random w) ->
  sensor_record np_sin np_pi sensor ts w = (Ok record, w') ->
  r_is_anomaly record = true ->
  exists base f,
    fst (_generate_realistic_value np_sin np_pi sensor ts w) = Ok base
    /\ In f anomaly_factors
    /\ r_value record = py_round (base * f) 3
    /\ r_status record = "error"%string
    /\ band_matches sensor (base * f) (r_quality_score record).
Proof.
  intros Htape Hrun Hflag.
  destruct (sensor_record_fields _ _ _ _ _ _ _ Htape Hrun)
    as (_ & base & value & score & wa & wb & Hbase & Htrue & _ & Hta & Hscore
        & _ & Hvalue & Hq).
  destruct (Htrue Hflag) as (Hstatus & f & Hf & ->).
  exists base, f.
  split; [exact Hbase|]. split; [exact Hf|]. split; [exact Hvalue|].
  split; [exact Hstatus|].
  rewrite Hq. exact (rounded_score_band _ _ _ _ _ Hta Hscore).
Qed.

Lemma anomaly_world_uniform : uniform_tape (py_random anomaly_world).
Proof.
  intros [|[|[|n]]]; cbn; split; lra.
Qed.

(** VIB_001 on a Monday at midnight: the base value 0.15 times 1.5 is
    0.225, inside the normal range of the sensor, and the anomaly is
    scored 0.975. *)
Lemma anomaly_scored_by_its_value_witness :
  exists record w',
    sensor_record sample_sin sample_pi vib_001 ts_2024_01_01 anomaly_world
    = (Ok record, w')
    /\ r_is_anomaly record = true
    /\ r_value record == 0.225
    /\ r_quality_score record == 0.975
    /\ exists base f,
         fst (_generate_realistic_value sample_sin sample_pi vib_001
                                        ts_2024_01_01 anomaly_world) = Ok base
         /\ In f anomaly_factors
         /\ r_value record = py_round (base * f) 3
         /\ r_status record = "error"%string
         /\ band_matches vib_001 (base * f) (r_quality_score record).
Proof.
  eexists. eexists. split; [vm_compute; reflexivity|].
  split; [reflexivity|]. split; [reflexivity|]. split; [reflexivity|].
  eapply (anomaly_scored_by_its_value sample_sin sample_pi vib_001
            ts_2024_01_01 anomaly_world).
  - exact anomaly_world_uniform.
  - vm_compute. reflexivity.
  - reflexivity.
Defined.

(* ------------------------------------------------------------------ *)
(** ** Bounds of the base value *)

(** X7. For a range with [0 <= normal_min <= normal_max], the base value of a
    sensor that is not a temperature sensor lies between
    [0.95 * normal_min] and [normal_max], and inside the normal range on
    the weekdays 0 to 4; the base value of a temperature sensor lies
    between [0.95 * normal_min - 2] and [normal_max + 5] as long as the
    sine of the seasonal term is between -1 and 1. *)
Theorem base_value_bounds
        (np_sin : Q -> Q) (np_pi : Q)
        (sensor : SensorConfig) (ts : Z) (w : World) :
  uniform_tape (py_random w) ->
  (0 <= fst (normal_range sensor))%Q ->
  (fst (normal_range sensor) <= snd (normal_range sensor))%Q ->
  (is_temperature sensor = true ->
   (-1 <= np_sin (2 * np_pi * inject_Z (tm_yday ts) / 365)
    /\ np_sin (2 * np_pi * inject_Z (tm_yday ts) / 365) <= 1)%Q) ->
  exists value w',
    _generate_realistic_value np_sin np_pi sensor ts w = (Ok value, w')
    /\ (is_temperature sensor = false ->
        (0.95 * fst (normal_range sensor) <= value
         /\ value <= snd (normal_range sensor))%Q
        /\ (weekday ts < 5 -> (fst (normal_range sensor) <= value)%Q))
    /\ (is_temperature sensor = true ->
        (0.95 * fst (normal_range sensor) - 2 <= value
         /\ value <= snd (normal_range sensor) + 5)%Q).
Proof.
  intros Htape Hlo Hrange Hsin.
  destruct (uniform_tape_peek _ Htape) as [Hu0 Hu1].
  destruct (uniform_tape_peek _ (uniform_tape_advance _ Htape)) as [Hv0 Hv1].
  eexists _, _. split; [apply generate_realistic_value_run|].
  destruct (uniform_value_bounds _ _ _ Hrange Hu0 Hu1) as [Hb0 Hb1].
  destruct (uniform_value_bounds 1 3 _ ltac:(lra) Hv0 Hv1) as [Ho0 Ho1].
  set (base := uniform_value (fst (normal_range sensor)) _ _) in *.
  set (offset := uniform_value 1 3 _) in *.
  unfold day_shift. cbv zeta.
  destruct (is_temperature sensor) eqn:Et; cbn [andb].
  - split; [discriminate|]. intros _.
    specialize (Hsin eq_refl).
    set (s := np_sin _) in *.
    destruct ((6 <=? hour ts) && (hour ts <=? 18)); destruct (5 <=? weekday ts);
      split; lra.
  - split; [|discriminate]. intros _.
    destruct (5 <=? weekday ts) eqn:Ew.
    + split; [split; lra|]. intros Hwd. apply Z.leb_le in Ew. lia.
    + split; [split; lra|]. intros _. lra.
Qed.

Lemma base_value_bounds_witness :
  exists value w',
    _generate_realistic_value sample_sin sample_pi temp_001 ts_saturday_noon
                              sample_world = (Ok value, w')
    /\ (is_temperature temp_001 = false ->
        (0.95 * fst (normal_range temp_001) <= value
         /\ value <= snd (normal_range temp_001))%Q
        /\ (weekday ts_saturday_noon < 5 ->
            (fst (normal_range temp_001) <= value)%Q))
    /\ (is_temperature temp_001 = true ->
        (0.95 * fst (normal_range temp_001) - 2 <= value
         /\ value <= snd (normal_range temp_001) + 5)%Q).
Proof.
  apply (base_value_bounds sample_sin sample_pi temp_001 ts_saturday_noon
           sample_world).
  - exact sample_draws_uniform.
  - vm_compute. discriminate.
  - vm_compute. discriminate.
  - intros _. split; vm_compute; discriminate.
Defined.

(** A humidity base value on a weekend falls below the normal range. *)
Example weekend_value_below_normal_range :
  match fst (_generate_realistic_value sample_sin sample_pi hum_001
                                       ts_saturday_noon sample_world) with
  | Ok value => (value < fst (normal_range hum_001))%Q
  | Raise _ => False
  end.
Proof. vm_compute. reflexivity. Qed.

(* ------------------------------------------------------------------ *)
(** ** Readings name configured equipment *)

Lemma sensor_has_equipment_spec equipments sensor :
  sensor_has_equipment equipments sensor = true ->
  exists e,
    In e equipments
    /\ equipment_id e = s_equipment_id sensor
    /\ e_location e = s_location sensor.
Proof.
  unfold sensor_has_equipment. intros H.
  apply existsb_exists in H. destruct H as (e & Hin & Hb).
  apply andb_true_iff in Hb. destruct Hb as [H1 H2].
  apply String.eqb_eq in H1, H2. exists e. auto.
Qed.

Lemma configured_sensors_have_equipment :
  forallb (sensor_has_equipment _create_equipment_config) _create_sensor_config
  = true.
Proof. reflexivity. Qed.

(** X8. On a generator made by the constructor, every record that
    [generate_sensor_data] returns carries the [equipment_id] of one of
    the generator's equipment configurations, and the location of that
    equipment: the readings join with the logs and the metrics on
    [equipment_id]. *)
Theorem readings_reference_equipment
        (np_sin : Q -> Q) (np_pi : Q) (to_datetime : string -> Outcome Z)
        (start : string) (days : Z)
        (self : Generator) (records_per_day : Z) (w : World) :
  __init__ to_datetime start days = Ok self ->
  world_ok w ->
  Forall (references_equipment self)
         (rows_of (generate_sensor_data np_sin np_pi self records_per_day w)).
Proof.
  intros Hinit Hok. unfold __init__ in Hinit.
  destruct (to_datetime start) as [ts0|e0]; [|discriminate].
  injection Hinit as <-. unfold rows_of.
  destruct (generate_sensor_data np_sin np_pi _ records_per_day w)
    as [[df|e] w'] eqn:Erun; cbn [fst]; [|constructor].
  destruct (generate_sensor_data_rows _ _ _ _ _ _ _ Hok Erun) as [Hrows _].
  eapply Forall_impl; [|exact Hrows].
  intros record (sensor & ts & w0 & Hin & Htape & Hrec).
  destruct (sensor_record np_sin np_pi sensor ts w0) as [[r|e] w1] eqn:Er;
    cbn in Hrec; [|discriminate].
  injection Hrec as ->.
  destruct (sensor_record_fields _ _ _ _ _ _ _ Htape Er) as [Hkey _].
  unfold reading_key, sensor_key in Hkey. injection Hkey as _ _ Heq _ Hloc.
  cbn [sensors] in Hin.
  pose proof configured_sensors_have_equipment as Hall.
  rewrite forallb_forall in Hall.
  destruct (sensor_has_equipment_spec _ _ (Hall sensor Hin)) as (eq & He & H1 & H2).
  exists eq. cbn [equipment]. rewrite Heq, Hloc. auto.
Qed.

Lemma readings_reference_equipment_witness :
  Forall (references_equipment sample_generator)
         (rows_of (generate_sensor_data sample_sin sample_pi sample_generator
                                        24 sample_world))
  /\ rows_of (generate_sensor_data sample_sin sample_pi sample_generator
                                   24 sample_world) <> [].
Proof.
  split.
  - apply (readings_reference_equipment sample_sin sample_pi sample_to_datetime
             "2024-01-01" 1 sample_generator 24 sample_world).
    + reflexivity.
    + exact sample_world_ok.
  - vm_compute. discriminate.
Defined.

(* ------------------------------------------------------------------ *)
(** ** Log entries *)

Lemma py_round2_between lo hi a b x :
  a == inject_Z lo / inject_Z 100 ->
  b == inject_Z hi / inject_Z 100 ->
  (a <= x /\ x <= b)%Q ->
  (a <= py_round x 2 /\ py_round x 2 <= b)%Q.
Proof.
  intros Ea Eb [Hlo Hhi].
  pose proof (py_round_between lo hi x 2 ltac:(lia)) as H.
  change (inject_Z (10 ^ 2)) with (inject_Z 100) in H.
  rewrite <- Ea, <- Eb in H. apply H; assumption.
Qed.

Lemma dict_get_templates level :
  In level log_levels ->
  exists templates,
    dict_get log_templates level = Ok templates /\ templates <> [].
Proof.
  intros Hin. cbn in Hin.
  destruct Hin as [<- | [<- | [<- | [<- | []]]]];
    eexists; (split; [reflexivity | discriminate]).
Qed.

Lemma safe_error_items level :
  safe_with (error_items_ok level)
            (if String.eqb level "ERROR" then
               code <- random_randint 1000 9999 ;;
               severity <- random_choice ["LOW"; "MEDIUM"; "HIGH"; "CRITICAL"]%string ;;
               ret (Some ("ERR_" ++ str_int code)%string, Some severity)
             else ret (None, None)).
Proof.
  destruct (String.eqb_spec level "ERROR") as [E|E].
  - eapply safe_bind; [apply safe_random_randint; lia | intros code Hcode].
    eapply safe_bind; [apply safe_random_choice; discriminate | intros sev Hsev].
    apply safe_ret. left. split; [exact E|]. split.
    + exists code. split; [exact Hcode | reflexivity].
    + exists sev. split; [exact Hsev | reflexivity].
  - apply safe_ret. right. split; [exact E | reflexivity].
Qed.

Lemma safe_warning_item level :
  safe_with (warning_item_ok level)
            (if String.eqb level "WARNING" then
               code <- random_randint 100 999 ;;
               ret (Some ("WARN_" ++ str_int code)%string)
             else ret None).
Proof.
  destruct (String.eqb_spec level "WARNING") as [E|E].
  - eapply safe_bind; [apply safe_random_randint; lia | intros code Hcode].
    apply safe_ret. left. split; [exact E|].
    exists code. split; [exact Hcode | reflexivity].
  - apply safe_ret. right. split; [exact E | reflexivity].
Qed.

Lemma safe_log_entry_well_formed equipment ts :
  safe_with (log_entry_well_formed equipment ts)
            (_generate_log_entry equipment ts).
Proof.
  unfold _generate_log_entry.
  eapply safe_bind; [apply safe_log_level_choice | intros level Hlevel].
  destruct (dict_get_templates level Hlevel) as (templates & Hget & Hne).
  rewrite Hget.
  eapply safe_bind; [apply (safe_lift (eq templates)); reflexivity|].
  intros ? <-.
  eapply safe_bind; [apply safe_random_choice; exact Hne | intros message Hmsg].
  eapply safe_bind; [apply safe_error_items | intros err Herr].
  eapply safe_bind; [apply safe_warning_item | intros warning Hwarning].
  eapply safe_bind; [apply (safe_random_uniform 10 90); lra | intros cpu Hcpu].
  eapply safe_bind; [apply (safe_random_uniform 20 80); lra | intros mem Hmem].
  eapply safe_bind; [apply (safe_random_uniform 1 50); lra | intros lat Hlat].
  apply safe_ret. unfold log_entry_well_formed.
  cbn [l_equipment_id l_equipment_name l_location l_equipment_type l_status
       l_timestamp l_log_level l_message l_error_code l_severity
       l_warning_code l_parameters cpu_usage memory_usage network_latency].
  split; [reflexivity|]. split; [reflexivity|].
  split; [exists templates; split; assumption|].
  split; [destruct err; exact Herr|].
  split; [exact Hwarning|].
  split; [apply (py_round2_between 1000 9000); [reflexivity | reflexivity | exact Hcpu]|].
  split; [apply (py_round2_between 2000 8000); [reflexivity | reflexivity | exact Hmem]|].
  apply (py_round2_between 100 5000); [reflexivity | reflexivity | exact Hlat].
Qed.

Lemma safe_logs_from self logs_per_day :
  safe_with (fun logs => List.length logs = log_rows self logs_per_day
                         /\ Forall (log_from self) logs)
            (generate_equipment_logs self logs_per_day).
Proof.
  unfold generate_equipment_logs, log_rows.
  rewrite <- (py_range_length (num_days self)).
  rewrite <- (py_range_length logs_per_day).
  apply safe_for_each. intros day Hday. apply py_range_In in Hday.
  apply safe_for_each. intros equipment Hequipment.
  eapply safe_weaken.
  - apply (safe_for_each (log_from self) 1). intros i _.
    eapply safe_bind; [apply safe_random_randint; lia | intros seconds Hsec].
    apply safe_singleton.
    eapply safe_weaken; [apply safe_log_entry_well_formed|].
    intros log Hlog. exists equipment, day, seconds. auto.
  - intros l [Hlen HP]. rewrite Nat.mul_1_r in Hlen. auto.
Qed.

(** X9. Every entry that [generate_equipment_logs] returns copies the five
    columns of its equipment, has a level of the four, a message of the
    templates of that level, an error code [ERR_1000] to [ERR_9999] and a
    severity exactly on the level ERROR, a warning code [WARN_100] to
    [WARN_999] exactly on the level WARNING, and parameters within
    [[10, 90]], [[20, 80]] and [[1, 50]]; its timestamp is 0 to 86399
    seconds after the start time on one of the generator's days. *)
Theorem log_entries_well_formed
        (self : Generator) (logs_per_day : Z) (w : World) :
  world_ok w ->
  exists logs w',
    generate_equipment_logs self logs_per_day w = (Ok logs, w')
    /\ Forall (log_from self) logs.
Proof.
  intros Hok.
  destruct (safe_logs_from self logs_per_day w Hok)
    as (logs & w' & Hrun & [_ HP] & _).
  exists logs, w'. split; assumption.
Qed.

Lemma log_entries_well_formed_witness :
  exists logs w',
    generate_equipment_logs two_day_generator 10 sample_world = (Ok logs, w')
    /\ Forall (log_from two_day_generator) logs.
Proof.
  apply (log_entries_well_formed two_day_generator 10 sample_world).
  exact sample_world_ok.
Defined.

(** The first entry of the level ERROR in a sample run. *)
Example sample_error_log :
  match nth_error (rows_of (generate_equipment_logs two_day_generator 10
                                                    sample_world)) 16 with
  | Some log =>
      l_log_level log = "ERROR"%string
      /\ l_error_code log = Some "ERR_9370"%string
      /\ l_severity log = Some "MEDIUM"%string
      /\ l_warning_code log = None
  | None => False
  end.
Proof. vm_compute. repeat split. Qed.



(* ------------------------------------------------------------------ *)
(** ** The dates of the log entries *)

(** The first ten characters of a rendered timestamp are its date. *)
Lemma prefix_strftime_datetime ts :
  prefix 10 (strftime_datetime ts) = strftime_date ts.
Proof. reflexivity. Qed.

Lemma day_number_within_day ts seconds :
  0 <= seconds <= 86399 ->
  (day_number (ts + seconds) = day_number ts
   \/ day_number (ts + seconds) = day_number ts + 1)
  /\ (second_of_day ts = 0 -> day_number (ts + seconds) = day_number ts).
Proof.
  intros Hsec. unfold day_number, second_of_day.
  pose proof (Z.div_mod ts 86400 ltac:(lia)) as Hdm.
  pose proof (Z.mod_pos_bound ts 86400 ltac:(lia)) as Hb.
  pose proof (Z.div_mod (ts + seconds) 86400 ltac:(lia)) as Hdm'.
  pose proof (Z.mod_pos_bound (ts + seconds) 86400 ltac:(lia)) as Hb'.
  split; [|intros H0]; lia.
Qed.

(** X11. Every entry that [generate_equipment_logs] returns is dated (by the
    first ten characters of its timestamp, the key of the later split) on
    the generator's day it was made for or on the day after; on that very
    day when the start date is a midnight. *)
Theorem log_dates_on_generated_days
        (self : Generator) (logs_per_day : Z) (w : World) :
  world_ok w ->
  exists logs w',
    generate_equipment_logs self logs_per_day w = (Ok logs, w')
    /\ Forall (log_on_generated_day self) logs.
Proof.
  intros Hok.
  destruct (safe_logs_from self logs_per_day w Hok)
    as (logs & w' & Hrun & [_ HP] & _).
  exists logs, w'. split; [exact Hrun|].
  eapply Forall_impl; [|exact HP].
  intros log (unit_ & day & seconds & _ & Hday & Hsec & Hwf).
  destruct Hwf as (_ & Hts & _).
  exists day. split; [exact Hday|].
  unfold log_date. rewrite Hts, prefix_strftime_datetime.
  unfold timedelta_seconds.
  destruct (day_number_within_day (start_date self + timedelta_days day)
              seconds Hsec) as [Hcases Hmidnight].
  split.
  - destruct Hcases as [E | E]; [left | right];
      apply strftime_date_day_number; rewrite E; [reflexivity|].
    rewrite !day_number_shift. lia.
  - intros H0. apply strftime_date_day_number, Hmidnight.
    unfold second_of_day, timedelta_days in *.
    rewrite (Z.mul_comm 86400 day), Z.mod_add by lia. exact H0.
Qed.

Lemma log_dates_on_generated_days_witness :
  exists logs w',
    generate_equipment_logs two_day_generator 10 sample_world = (Ok logs, w')
    /\ Forall (log_on_generated_day two_day_generator) logs.
Proof.
  apply (log_dates_on_generated_days two_day_generator 10 sample_world).
  exact sample_world_ok.
Defined.

(** With a start at 18:00 the entries of the last day reach into the day
    after it. *)
Example logs_spill_into_next_day :
  let self := mkGen (ts_2024_01_01 + 3600 * 18) 1 _create_sensor_config
                    _create_equipment_config in
  existsb (fun log => String.eqb (log_date log) "2024-01-02")
          (rows_of (generate_equipment_logs self 10 sample_world)) = true.
Proof. vm_compute. reflexivity. Qed.

(* ------------------------------------------------------------------ *)
(** ** The split of the logs by date, in full *)

Lemma filter_snoc_same date seen log :
  log_date log = date ->
  filter (has_date date) (seen ++ [log]) = filter (has_date date) seen ++ [log].
Proof.
  intros E. rewrite filter_app. cbn [filter]. unfold has_date at 2.
  rewrite E, String.eqb_refl. reflexivity.
Qed.

Lemma filter_snoc_other date seen log :
  log_date log <> date ->
  filter (has_date date) (seen ++ [log]) = filter (has_date date) seen.
Proof.
  intros E. rewrite filter_app. cbn [filter]. unfold has_date at 2.
  apply String.eqb_neq in E. rewrite E. apply app_nil_r.
Qed.

Lemma dict_append_groups dates seen log :
  NoDup dates ->
  filter (has_date (log_date log)) seen = [] \/ In (log_date log) dates ->
  dict_append (groups_by_date dates seen) (log_date log) log
  = groups_by_date
      (if existsb (String.eqb (log_date log)) dates then dates
       else dates ++ [log_date log])
      (seen ++ [log]).
Proof.
  induction dates as [|k dates IH]; intros Hnd Hnew.
  - destruct Hnew as [Hnone | []].
    unfold groups_by_date. cbn [map dict_append existsb app].
    rewrite filter_snoc_same, Hnone by reflexivity. reflexivity.
  - inversion Hnd as [|? ? Hk Hnd']; subst.
    unfold groups_by_date. cbn [map dict_append existsb].
    rewrite (String.eqb_sym (log_date log) k).
    destruct (String.eqb_spec k (log_date log)) as [E | E].
    + cbn [orb map]. rewrite filter_snoc_same by (symmetry; exact E).
      f_equal. apply map_ext_in. intros k' Hk'.
      rewrite filter_snoc_other; [reflexivity|].
      intros E'. apply Hk. rewrite E, E'. exact Hk'.
    + cbn [orb]. fold (groups_by_date dates seen).
      rewrite IH; [|exact Hnd'|].
      * unfold groups_by_date.
        destruct (existsb (String.eqb (log_date log)) dates);
          cbn [map app];
          rewrite (filter_snoc_other k)
            by (intros E'; apply E; symmetry; exact E');
          reflexivity.
      * destruct Hnew as [Hnone | [Hhead | Htail]];
          [left; exact Hnone | contradiction | right; exact Htail].
Qed.

Lemma existsb_eqb_In date dates :
  existsb (String.eqb date) dates = true <-> In date dates.
Proof.
  rewrite existsb_exists. split.
  - intros (k & Hin & E). apply String.eqb_eq in E. subst. exact Hin.
  - intros Hin. exists date. split; [exact Hin | apply String.eqb_refl].
Qed.

Lemma filter_has_date_none date seen :
  (forall log, In log seen -> log_date log <> date) ->
  filter (has_date date) seen = [].
Proof.
  induction seen as [|l seen IH]; intros H; [reflexivity|].
  cbn [filter]. unfold has_date at 1.
  destruct (String.eqb_spec (log_date l) date) as [E | E].
  - exfalso. exact (H l (or_introl eq_refl) E).
  - apply IH. intros log Hin. apply H. right. exact Hin.
Qed.

Lemma fold_dict_append_groups logs dates seen :
  NoDup dates ->
  (forall log, In log seen -> In (log_date log) dates) ->
  fold_left (fun d log => dict_append d (log_date log) log) logs
            (groups_by_date dates seen)
  = groups_by_date (dates ++ dates_in_order dates logs) (seen ++ logs)
  /\ NoDup (dates ++ dates_in_order dates logs)
  /\ (forall log, In log (seen ++ logs) ->
        In (log_date log) (dates ++ dates_in_order dates logs)).
Proof.
  revert dates seen. induction logs as [|log logs IH]; intros dates seen Hnd Hcover.
  - cbn [fold_left dates_in_order]. rewrite !app_nil_r. auto.
  - cbn [fold_left dates_in_order].
    assert (Hnew : filter (has_date (log_date log)) seen = []
                   \/ In (log_date log) dates).
    { destruct (existsb (String.eqb (log_date log)) dates) eqn:Ex.
      - right. apply existsb_eqb_In. exact Ex.
      - left. apply filter_has_date_none. intros l Hl E.
        assert (Hin : In (log_date log) dates) by (rewrite <- E; auto).
        apply existsb_eqb_In in Hin. congruence. }
    rewrite (dict_append_groups dates seen log Hnd Hnew).
    replace (seen ++ log :: logs) with ((seen ++ [log]) ++ logs)
      by (rewrite <- app_assoc; reflexivity).
    destruct (existsb (String.eqb (log_date log)) dates) eqn:Ex.
    + apply IH; [exact Hnd|].
      intros l Hl. apply in_app_or in Hl. destruct Hl as [Hl | [<- | []]].
      * auto.
      * apply existsb_eqb_In. exact Ex.
    + replace (dates ++ log_date log :: dates_in_order (dates ++ [log_date log]) logs)
        with ((dates ++ [log_date log])
              ++ dates_in_order (dates ++ [log_date log]) logs)
        by (rewrite <- app_assoc; reflexivity).
      apply IH.
      * apply NoDup_app; [exact Hnd | repeat constructor; intros [] |].
        intros k Hk [<- | []]. apply existsb_eqb_In in Hk. congruence.
      * intros l Hl. apply in_app_or in Hl. apply in_or_app.
        destruct Hl as [Hl | [<- | []]]; [left; auto | right; left; reflexivity].
Qed.

(** X12. The loop that fills [logs_by_date] builds one list per date, the
    dates in the order in which they first appear in [logs], and the
    list of a date holds exactly the entries of that date in their
    original order: nothing is lost, duplicated or reordered within a
    date. *)
Theorem split_logs_by_date_groups (logs : list LogEntry) :
  split_logs_by_date logs = groups_by_date (dates_in_order [] logs) logs
  /\ NoDup (dates_in_order [] logs)
  /\ (forall log, In log logs -> In (log_date log) (dates_in_order [] logs)).
Proof.
  exact (fold_dict_append_groups logs [] [] (NoDup_nil _)
           (fun log (H : In log []) => match H with end)).
Qed.

(** The split of a sample run with a start at 18:00: two dates. *)
Example sample_split_by_date :
  let self := mkGen (ts_2024_01_01 + 3600 * 18) 1 _create_sensor_config
                    _create_equipment_config in
  let logs := rows_of (generate_equipment_logs self 10 sample_world) in
  map (fun item => (fst item, List.length (snd item))) (split_logs_by_date logs)
  = [("2024-01-01", 12%nat); ("2024-01-02", 38%nat)]%string.
Proof. vm_compute. reflexivity. Qed.

(* ------------------------------------------------------------------ *)
(** ** Quality metrics, column by column *)

Lemma safe_quality_metric_columns unit_ current_date :
  safe_with (fun metric =>
               metric_key metric
               = (equipment_id unit_, strftime_date current_date,
                  e_location unit_)
               /\ metric_in_ranges metric)
            (quality_metric unit_ current_date).
Proof.
  unfold quality_metric.
  eapply safe_bind; [apply (safe_random_uniform 20 24); lra | intros up Hup].
  eapply safe_bind; [apply (safe_random_uniform 0 4); lra | intros down Hdown].
  eapply safe_bind; [apply (safe_random_uniform 85 98); lra | intros eff Heff].
  eapply safe_bind; [apply safe_random_randint; lia | intros errors Herrors].
  eapply safe_bind; [apply safe_random_randint; lia | intros warnings Hwarnings].
  eapply safe_bind; [apply safe_random_choice; discriminate | intros flag _].
  eapply safe_bind; [apply safe_random_randint; lia | intros last_delta _].
  eapply safe_bind; [apply safe_random_randint; lia | intros next_delta _].
  eapply safe_bind; [apply safe_random_randint; lia | intros units Hunits].
  eapply safe_bind; [apply (safe_random_uniform 0.9 1.0); lra | intros score Hscore].
  apply safe_ret. split; [reflexivity|].
  unfold metric_in_ranges.
  cbn [uptime_hours downtime_hours efficiency_percentage error_count
       warning_count production_units m_quality_score].
  split; [apply (py_round2_between 2000 2400); [reflexivity | reflexivity | exact Hup]|].
  split; [apply (py_round2_between 0 400); [reflexivity | reflexivity | exact Hdown]|].
  split; [apply (py_round2_between 8500 9800); [reflexivity | reflexivity | exact Heff]|].
  split; [exact Herrors|]. split; [exact Hwarnings|]. split; [exact Hunits|].
  destruct Hscore as [S1 S2].
  apply (py_round3_between 900 1000); [reflexivity | reflexivity | exact S1 | exact S2].
Qed.

(** X14. [generate_quality_metrics] returns one record per day and equipment,
    day by day and within a day in the order of the equipment
    configuration, with the equipment's id and location and the date of
    the day; in every record the uptime is within [[20, 24]], the
    downtime within [[0, 4]], the efficiency within [[85, 98]], the error
    count within 0 to 5, the warning count within 0 to 15, the production
    units within 800 to 1200 and the quality score within
    [[0.9, 1.0]]. *)
Theorem quality_metrics_columns (self : Generator) (w : World) :
  world_ok w ->
  exists metrics w',
    generate_quality_metrics self w = (Ok metrics, w')
    /\ map metric_key metrics = metric_grid self
    /\ Forall metric_in_ranges metrics.
Proof.
  intros Hok.
  assert (Hrun : ok_with (generate_quality_metrics self) w
                   (fun metrics w' =>
                      map metric_key metrics = metric_grid self
                      /\ evolves w w')).
  { unfold generate_quality_metrics, metric_grid.
    apply (for_each_map (evolves w)); [|apply evolves_refl].
    intros day w1 _ Hev1.
    eapply ok_weaken.
    - apply (for_each_map (evolves w) metric_key
               (fun e => [(equipment_id e,
                           strftime_date (start_date self + timedelta_days day),
                           e_location e)])); [|exact Hev1].
      intros unit_ w2 _ Hev2.
      destruct (safe_quality_metric_columns unit_
                  (start_date self + timedelta_days day) w2
                  (evolves_ok _ _ Hev2 Hok))
        as (metric & w3 & Hm & [Hkey _] & Hev3).
      exists [metric], w3. split.
      + rewrite (bind_ok _ _ _ _ _ Hm). reflexivity.
      + split; [cbn [map]; rewrite Hkey; reflexivity|].
        eapply evolves_trans; eassumption.
    - intros l w' [Hm Hev]. split; [|exact Hev].
      rewrite Hm. clear. induction (equipment self) as [|e l' IH]; [reflexivity|].
      cbn [flat_map map app]. rewrite IH. reflexivity. }
  assert (Hranges : safe_with (fun metrics =>
                       List.length metrics
                       = (List.length (py_range (num_days self))
                          * List.length (equipment self))%nat
                       /\ Forall metric_in_ranges metrics)
                      (generate_quality_metrics self)).
  { unfold generate_quality_metrics.
    apply safe_for_each. intros day _.
    eapply safe_weaken.
    - apply (safe_for_each metric_in_ranges 1). intros unit_ _.
      apply safe_singleton.
      eapply safe_weaken; [apply safe_quality_metric_columns|].
      intros metric [_ H]. exact H.
    - intros l [Hlen HP]. rewrite Nat.mul_1_r in Hlen. auto. }
  destruct Hrun as (metrics & w' & Hrun & Hkeys & _).
  destruct (Hranges w Hok) as (metrics' & w'' & Hrun' & [_ HP] & _).
  rewrite Hrun in Hrun'. injection Hrun' as <- <-.
  exists metrics, w'. auto.
Qed.

Lemma quality_metrics_columns_witness :
  exists metrics w',
    generate_quality_metrics two_day_generator sample_world = (Ok metrics, w')
    /\ map metric_key metrics = metric_grid two_day_generator
    /\ Forall metric_in_ranges metrics.
Proof.
  apply (quality_metrics_columns two_day_generator sample_world).
  exact sample_world_ok.
Defined.

(** Uptime and downtime are drawn apart: in some metric of the sample
    run they add up to more than 24 hours. *)
Example uptime_and_downtime_uncoupled :
  existsb (fun metric =>
             Qlt_bool 24 (uptime_hours metric + downtime_hours metric))
          (rows_of (generate_quality_metrics two_day_generator sample_world))
  = true.
Proof. vm_compute. reflexivity. Qed.

(* ------------------------------------------------------------------ *)
(** ** Saving without a day to generate *)

(** X15. On a generator without days ([num_days <= 0]) [save_data] writes
    [sensor_data.csv] without rows and then raises [KeyError]: the frame
    built from no record has no [timestamp] column.  Nothing else is
    written and no draw is taken. *)
Theorem save_data_without_days
        (np_sin : Q -> Q) (np_pi : Q)
        (self : Generator) (output_dir : string) (w : World) :
  num_days self <= 0 ->
  save_data np_sin np_pi self output_dir w
  = (Raise (KeyError "timestamp"),
     add_file w (output_dir ++ "/sensor_data.csv")%string (SensorCsv [])).
Proof.
  intros Hdays. unfold save_data.
  rewrite (bind_ok _ _ _ _ _
             (generate_sensor_data_no_days np_sin np_pi self 1440 w Hdays)).
  reflexivity.
Qed.

Lemma save_data_without_days_witness :
  save_data sample_sin sample_pi empty_generator "./sample_data" sample_world
  = (Raise (KeyError "timestamp"),
     add_file sample_world ("./sample_data" ++ "/sensor_data.csv")%string
              (SensorCsv [])).
Proof.
  apply (save_data_without_days sample_sin sample_pi empty_generator
           "./sample_data" sample_world).
  vm_compute. discriminate.
Defined.

(* ------------------------------------------------------------------ *)
(** ** The files of the split of the logs *)



(** The files of the split of a sample run with a start at 18:00. *)
Example sample_log_files :
  let self := mkGen (ts_2024_01_01 + 3600 * 18) 1 _create_sensor_config
                    _create_equipment_config in
  let logs := rows_of (generate_equipment_logs self 10 sample_world) in
  map fst (files (snd (save_logs_by_date "out" logs sample_world)))
  = [ "out/equipment_logs_by_date/2024-01-01/equipment_logs_2024-01-01.json";
      "out/equipment_logs_by_date/2024-01-02/equipment_logs_2024-01-02.json"
    ]%string.
Proof. vm_compute. reflexivity. Qed.
